(** * Summarize Sidekick: request orchestration and delivery

    A shallow embedding of the browser extension's scripts:
    - [src/extension/background.js]  (module [Background]),
    - [src/unnamed/part_001]         (module [Part001], the other
      deployment of the service worker),
    - [src/unnamed/part_000]         (module [Popup], the control surface),
    - the two renderers the service workers inject into the page
      (module [Dom]),
    together with the host platform they run on (network, storage, tabs,
    the DOM of the target page), which is kept abstract in a [host] record
    or modelled just far enough to run the scripts.  Module [Demo] holds
    the hosts of the worked examples. *)

From Stdlib Require Import ZArith NArith List String Ascii Bool Lia.
From Stdlib Require Import DecimalString.
Import ListNotations.

Set Warnings "-register-all".

Local Open Scope Z_scope.
Local Open Scope list_scope.

(** ** JavaScript strings

    A JavaScript string is a sequence of UTF-16 code units. *)

Definition jsstring := list N.

Definition lit (s : string) : jsstring :=
  map N_of_ascii (list_ascii_of_string s).
Arguments lit s%_string.

Definition dquote : N := 34%N.
Definition newline : N := 10%N.
Definition ellipsis : N := 8230%N.

Fixpoint jsstring_eqb (a b : jsstring) : bool :=
  match a, b with
  | [], [] => true
  | x :: a', y :: b' => (x =? y)%N && jsstring_eqb a' b'
  | _, _ => false
  end.

(** ECMAScript WhiteSpace and LineTerminator code points: what [trim] and
    [parseInt] strip. *)
Definition is_ws (c : N) : bool :=
  ((c =? 9) || (c =? 10) || (c =? 11) || (c =? 12) || (c =? 13) ||
   (c =? 32) || (c =? 160) || (c =? 5760) ||
   ((8192 <=? c) && (c <=? 8202)) ||
   (c =? 8232) || (c =? 8233) || (c =? 8239) || (c =? 8287) ||
   (c =? 12288) || (c =? 65279))%N.

Fixpoint trimStart (s : jsstring) : jsstring :=
  match s with
  | [] => []
  | c :: r => if is_ws c then trimStart r else s
  end.

Definition trimEnd (s : jsstring) : jsstring := rev (trimStart (rev s)).

Definition trim (s : jsstring) : jsstring := trimEnd (trimStart s).

(** [String.prototype.includes] *)
Fixpoint starts_with (needle hay : jsstring) : bool :=
  match needle, hay with
  | [], _ => true
  | _ :: _, [] => false
  | n :: ns, h :: hs => (n =? h)%N && starts_with ns hs
  end.

Fixpoint includes (hay needle : jsstring) : bool :=
  starts_with needle hay ||
  match hay with
  | [] => false
  | _ :: t => includes t needle
  end.

(** [may_start n b]: [n] agrees with [b] as far as [b] goes, so an
    occurrence of [n] may begin with [b]; [clear n p]: no occurrence of
    [n] begins inside [p], whatever follows [p]. *)
Fixpoint may_start (n b : jsstring) : bool :=
  match n, b with
  | [], _ => true
  | _ :: _, [] => true
  | x :: n', y :: b' => (x =? y)%N && may_start n' b'
  end.

Fixpoint clear (n p : jsstring) : bool :=
  match p with
  | [] => true
  | _ :: p' => negb (may_start n p) && clear n p'
  end.

(** [String.prototype.toLowerCase] on the letters A-Z; other code units
    are left as they are.  No code point outside A-Z lower-cases to a
    letter of the word looked for below, so the search is not affected. *)
Definition lower_unit (c : N) : N :=
  if ((65 <=? c) && (c <=? 90))%N then (c + 32)%N else c.

Definition toLowerCase (s : jsstring) : jsstring := map lower_unit s.

(** [s.replace(/c/g, rep)] for a one-character pattern. *)
Definition replace_all (c : N) (rep : jsstring) (s : jsstring) : jsstring :=
  flat_map (fun x => if (x =? c)%N then rep else [x]) s.

(** Decimal form of an integer: an HTTP status in a template literal,
    the digits and the exponent of a number. *)
Definition decimal (z : Z) : jsstring :=
  lit (NilEmpty.string_of_int (Z.to_int z)).

(** The string without its leading zeros. *)
Fixpoint trimZeros (s : jsstring) : jsstring :=
  match s with
  | [] => []
  | c :: r => if (c =? 48)%N then trimZeros r else s
  end.

(** ** Numbers

    A number is [NaN], an infinity, or a finite value, which is held as
    the decimal that number-to-string conversion prints for it: a sign,
    digits and a power of ten, [(-1)^negative * digits * 10^exponent]
    (for a double, its shortest decimal that reads back as the same
    double).  Zero has no digits but 0; its sign is kept. *)

Inductive number :=
| NaN
| Infinity (negative : bool)
| Finite (negative : bool) (digits : N) (exponent : Z).

(** The integer [z]. *)
Definition Int (z : Z) : number := Finite (z <? 0) (Z.abs_N z) 0.

(** The digits without their trailing zeros, and the exponent that
    makes up for them. *)
Definition significant (digits : N) (exponent : Z) : jsstring * Z :=
  let r := rev (decimal (Z.of_N digits)) in
  let zeros := (List.length r - List.length (trimZeros r))%nat in
  (rev (trimZeros r), exponent + Z.of_nat zeros).

(** Number::toString(x) in radix 10, for a finite [x] that is not zero
    and not negative: with [k] digits and the decimal point after the
    [n]-th of them, plain notation when [-6 < n <= 21] and exponent
    notation otherwise. *)
Definition positive_to_string (digits : N) (exponent : Z) : jsstring :=
  let '(ds, e) := significant digits exponent in
  let k := Z.of_nat (List.length ds) in
  let n := k + e in
  if (k <=? n) && (n <=? 21) then ds ++ repeat 48%N (Z.to_nat (n - k))
  else if (0 <? n) && (n <=? 21) then
    firstn (Z.to_nat n) ds ++ lit "." ++ skipn (Z.to_nat n) ds
  else if (-6 <? n) && (n <=? 0) then
    lit "0." ++ repeat 48%N (Z.to_nat (- n)) ++ ds
  else
    match ds with
    | [] => []
    | [d] => [d]
    | d :: rest => d :: lit "." ++ rest
    end ++ lit "e" ++ (if n - 1 <? 0 then lit "-" else lit "+")
        ++ decimal (Z.abs (n - 1)).

(** ** parseInt(s, 10) *)

Definition is_digit (c : N) : bool := ((48 <=? c) && (c <=? 57))%N.

Fixpoint digits_value (acc : Z) (s : jsstring) : Z :=
  match s with
  | [] => acc
  | c :: r =>
      if is_digit c then digits_value (10 * acc + Z.of_N (c - 48)) r
      else acc
  end.

Definition parse_digits (s : jsstring) : option Z :=
  match s with
  | c :: _ => if is_digit c then Some (digits_value 0 s) else None
  | [] => None
  end.

Definition parseInt10 (input : jsstring) : number :=
  let s := trimStart input in
  let '(sign, rest) :=
    match s with
    | c :: r => if (c =? 45)%N then (-1, r)
                else if (c =? 43)%N then (1, r) else (1, s)
    | [] => (1, s)
    end in
  match parse_digits rest with
  | Some v => Int (sign * v)
  | None => NaN
  end.

(** [parseInt] gives [NaN] on input without digits and an integer
    otherwise.  (Of an integer too large for a double the code has the
    nearest double, or an infinity; [Math.min(10, _)], the one reader of
    the result, makes 10 of all of these.) *)

(** ** JavaScript values *)

Inductive jsval :=
| VUndefined
| VNull
| VBool (b : bool)
| VNum (n : number)
| VStr (s : jsstring)
| VArr (items : list jsval)
| VObj (props : list (jsstring * jsval)).

(** ToBoolean *)
Definition truthy (v : jsval) : bool :=
  match v with
  | VUndefined | VNull => false
  | VBool b => b
  | VNum NaN => false
  | VNum (Infinity _) => true
  | VNum (Finite _ digits _) => negb (digits =? 0)%N
  | VStr s => match s with [] => false | _ => true end
  | VArr _ | VObj _ => true
  end.

(** [a || b] *)
Definition or_else (a b : jsval) : jsval := if truthy a then a else b.

(** Default parameter / destructuring default: used when the value is
    [undefined]. *)
Definition default_to (d v : jsval) : jsval :=
  match v with VUndefined => d | _ => v end.

Fixpoint lookup (k : jsstring) (props : list (jsstring * jsval)) : jsval :=
  match props with
  | [] => VUndefined
  | (k', v) :: r => if jsstring_eqb k k' then v else lookup k r
  end.

Fixpoint join (sep : jsstring) (l : list jsstring) : jsstring :=
  match l with
  | [] => []
  | [x] => x
  | x :: r => x ++ sep ++ join sep r
  end.

(** Number::toString *)
Definition number_to_string (n : number) : jsstring :=
  match n with
  | NaN => lit "NaN"
  | Infinity negative =>
      (if negative then lit "-" else []) ++ lit "Infinity"
  | Finite negative digits exponent =>
      if (digits =? 0)%N then lit "0"
      else (if negative then lit "-" else [])
             ++ positive_to_string digits exponent
  end.

(** ToString *)
Fixpoint ToString (v : jsval) : jsstring :=
  match v with
  | VUndefined => lit "undefined"
  | VNull => lit "null"
  | VBool true => lit "true"
  | VBool false => lit "false"
  | VNum n => number_to_string n
  | VStr s => s
  | VArr items =>
      join (lit ",")
        (map (fun x => match x with
                       | VUndefined | VNull => []
                       | _ => ToString x
                       end) items)
  | VObj _ => lit "[object Object]"
  end.

Definition parseInt (v : jsval) : number := parseInt10 (ToString v).

(** [x < a] and [a < x] for a finite [x] and an integer [a], both
    sides scaled by the power of ten that clears the exponent. *)
Definition scaled (negative : bool) (digits : N) (exponent : Z) (a : Z)
  : Z * Z :=
  ((if negative then -1 else 1) * Z.of_N digits * 10 ^ Z.max 0 exponent,
   a * 10 ^ Z.max 0 (- exponent)).

(** [Math.min] and [Math.max] of an integer constant and a number:
    [NaN] goes through both. *)
Definition Math_min (a : Z) (n : number) : number :=
  match n with
  | NaN => NaN
  | Infinity negative => if negative then n else Int a
  | Finite negative digits exponent =>
      let '(x, a') := scaled negative digits exponent a in
      if x <? a' then n else Int a
  end.

Definition Math_max (a : Z) (n : number) : number :=
  match n with
  | NaN => NaN
  | Infinity negative => if negative then Int a else n
  | Finite negative digits exponent =>
      let '(x, a') := scaled negative digits exponent a in
      if a' <? x then n else Int a
  end.

(** The expression every reader of the stored or typed sentence count
    uses: [Math.max(1, Math.min(10, parseInt(raw || "3", 10)))]. *)
Definition clamp_maxSentences (raw : jsval) : number :=
  Math_max 1 (Math_min 10 (parseInt (or_else raw (VStr (lit "3"))))).

(** What [JSON.stringify] writes for a value, as the value a JSON
    parser reads back from the text: [NaN] and the infinities are
    written [null], zero is written 0 whatever its sign, a property whose
    value is [undefined] is left out and an [undefined] array element
    is written [null]; for [undefined] itself nothing is written
    ([None]). *)
Fixpoint JSON_value (v : jsval) : option jsval :=
  match v with
  | VUndefined => None
  | VNum NaN | VNum (Infinity _) => Some VNull
  | VNum (Finite negative digits exponent) =>
      Some (VNum (if (digits =? 0)%N then Int 0
                  else Finite negative digits exponent))
  | VArr items =>
      Some (VArr (map (fun x => match JSON_value x with
                                | Some y => y
                                | None => VNull
                                end) items))
  | VObj props =>
      Some (VObj (flat_map (fun kv => match JSON_value (snd kv) with
                                      | Some y => [(fst kv, y)]
                                      | None => []
                                      end) props))
  | VNull | VBool _ | VStr _ => Some v
  end.

(** A value as the receiver of the JSON text finds it; what was not
    written is not there ([undefined]). *)
Definition wire (v : jsval) : jsval :=
  match JSON_value v with
  | Some b => b
  | None => VUndefined
  end.

(** ** Exceptions *)

Record jserror := mkError { err_name : jsstring; err_message : jsstring }.

Definition Error (msg : jsstring) : jserror := mkError (lit "Error") msg.
Definition TypeError (msg : jsstring) : jserror :=
  mkError (lit "TypeError") msg.
Definition URIError (msg : jsstring) : jserror :=
  mkError (lit "URIError") msg.

(** [String(err)], that is [Error.prototype.toString]. *)
Definition String_of_error (e : jserror) : jsstring :=
  match err_name e, err_message e with
  | [], m => m
  | n, [] => n
  | n, m => n ++ lit ": " ++ m
  end.

(** [v.name] for the property names the scripts read ([summary], [tone],
    [maxSentences], [text]), which no built-in prototype defines: reading
    them off [null] or [undefined] throws, off an object gives the own
    property, off anything else gives [undefined]. *)
Definition get_prop (v : jsval) (name : jsstring) : jserror + jsval :=
  match v with
  | VUndefined =>
      inl (TypeError (lit "Cannot read properties of undefined (reading '"
                        ++ name ++ lit "')"))
  | VNull =>
      inl (TypeError (lit "Cannot read properties of null (reading '"
                        ++ name ++ lit "')"))
  | VObj props => inr (lookup name props)
  | _ => inr VUndefined
  end.

(** ** The host platform and the effects of a script

    What the scripts observe of the platform is read off a [host]; what
    they do to it is appended to the [trace] of the [world]. *)

Record response := mkResponse { status : Z; body : jsstring }.

(** [res.ok] *)
Definition ok (r : response) : bool :=
  (200 <=? status r) && (status r <=? 299).

Inductive fetch_result :=
| Rejected (e : jserror)
| Responded (r : response).

(** A function run inside the page by [chrome.scripting.executeScript]. *)
Inductive injected :=
| UpsertSummaryBubble (text : jsval) (loading : bool)
| InPageRenderBubble (text : jsval).

Inductive reply :=
| ReplyOk (data : jsval)
| ReplyError (error : jsstring).

Inductive event :=
| EvFetch (url : jsstring) (payload : jsval)
| EvSleep (ms : Z)
| EvInject (tab : Z) (fn : injected)
| EvCreateTab (url : jsstring)
| EvSendResponse (r : reply).

Record host := mkHost {
  (** [JSON.parse]: [None] when it throws *)
  JSON_parse : jsstring -> option jsval;
  (** the answer to the n-th [fetch] of a run, given its URL and payload *)
  server : nat -> jsstring -> jsval -> fetch_result;
  (** the contents of [chrome.storage.sync] *)
  storage : list (jsstring * jsval);
  (** whether the tab lets [executeScript] run, and the error it is
      refused with otherwise *)
  injectable : Z -> bool;
  refusal : Z -> jserror;
  (** [window.getSelection()] of the tab's page as a string, if any *)
  selection : Z -> option jsstring;
  (** the id of the active tab of the current window, if any *)
  active_tab : option Z
}.

Record world := mkWorld { fetched : nat; trace : list event }.

Definition start : world := mkWorld 0 [].

Inductive outcome (A : Type) :=
| Ret (a : A)
| Throw (e : jserror)
| Diverge.
Arguments Ret {A} a.
Arguments Throw {A} e.
Arguments Diverge {A}.

Definition M (A : Type) := world -> outcome A * world.

Definition ret {A} (a : A) : M A := fun w => (Ret a, w).
Definition throw {A} (e : jserror) : M A := fun w => (Throw e, w).
Definition diverge {A} : M A := fun w => (Diverge, w).

Definition bind {A B} (c : M A) (k : A -> M B) : M B :=
  fun w =>
    match c w with
    | (Ret a, w') => k a w'
    | (Throw e, w') => (Throw e, w')
    | (Diverge, w') => (Diverge, w')
    end.

(** [try { c } catch (err) { handler err }] *)
Definition try_catch {A} (c : M A) (handler : jserror -> M A) : M A :=
  fun w =>
    match c w with
    | (Throw e, w') => handler e w'
    | r => r
    end.

Definition emit (e : event) : M unit :=
  fun w => (Ret tt, mkWorld (fetched w) (trace w ++ [e])).

Definition lift {A} (r : jserror + A) : M A :=
  match r with inl e => throw e | inr a => ret a end.

(** The events a computation appends are all of a given kind. *)
Definition appends {A} (Q : event -> Prop) (c : M A) : Prop :=
  forall w, exists evs,
    trace (snd (c w)) = trace w ++ evs /\ Forall Q evs.

(** The computation never runs out of fuel. *)
Definition returns {A} (c : M A) : Prop :=
  forall w, fst (c w) <> Diverge.

Declare Scope js_scope.
Delimit Scope js_scope with js.
Notation "x <- c ;; k" := (bind c (fun x => k))
  (at level 61, c at next level, right associativity) : js_scope.
Notation "c ;; k" := (bind c (fun _ => k))
  (at level 61, right associativity) : js_scope.
Local Open Scope js_scope.

(** ** The HTTP helper and the request builder

    [postJSON] and [summarize] read the same in the two service workers
    but for the constants at the head of the file. *)

Record config := mkConfig {
  API_BASE : jsstring;
  MAX_RETRIES : Z;
  RETRY_BASE_DELAY_MS : Z
}.

(** The errors the helper and the builder throw.  The scripts throw
    plain [Error]s told apart by their message; the names are those of
    the specification's taxonomy. *)

(** [new Error(`Invalid JSON from backend: ${txt}`)] *)
Definition ParseError (txt : jsstring) : jserror :=
  Error (lit "Invalid JSON from backend: " ++ txt).

(** [new Error(`HTTP ${res.status}: ${msg || "Request failed"}`)] *)
Definition HttpError (status : Z) (msg : jsstring) : jserror :=
  Error (lit "HTTP " ++ decimal status ++ lit ": " ++
         ToString (or_else (VStr msg) (VStr (lit "Request failed")))).

(** [new Error("No text provided to summarize.")] *)
Definition ValidationError : jserror :=
  Error (lit "No text provided to summarize.").

Section Http.
Variable h : host.
Variable cfg : config.

(** [await fetch(url, { method: "POST", ...,
                       body: JSON.stringify(payload) })] *)
Definition fetch (url : jsstring) (payload : jsval) : M response :=
  fun w =>
    let w' := mkWorld (S (fetched w)) (trace w ++ [EvFetch url payload]) in
    match server h (fetched w) url payload with
    | Rejected e => (Throw e, w')
    | Responded r => (Ret r, w')
    end.

(** [await new Promise(r => setTimeout(r, delay))] *)
Definition sleep (ms : Z) : M unit := emit (EvSleep ms).

(** The body of [while (true)], with [fuel] bounding the number of
    rounds. *)
Fixpoint postJSON_loop (fuel : nat) (path : jsstring) (payload : jsval)
    (attempt delay : Z) : M jsval :=
  match fuel with
  | O => diverge
  | S fuel' =>
      res <- fetch (API_BASE cfg ++ path) payload ;;
      if ok res then
        let txt := body res in
        match JSON_parse h txt with
        | Some v => ret v
        | None => throw (ParseError txt)
        end
      else if (status res =? 429) && (attempt <? MAX_RETRIES cfg) then
        sleep delay ;;
        postJSON_loop fuel' path payload (attempt + 1) (delay * 2)
      else
        let msg := body res in
        throw (HttpError (status res) msg)
  end.

Definition postJSON (path : jsstring) (payload : jsval) : M jsval :=
  postJSON_loop (S (Z.to_nat (MAX_RETRIES cfg))) path payload
                0 (RETRY_BASE_DELAY_MS cfg).

(** [{ text, tone, maxSentences }] *)
Definition request (text tone maxSentences : jsval) : jsval :=
  VObj [(lit "text", text); (lit "tone", tone);
        (lit "maxSentences", maxSentences)].

(** [!text || !text.trim()] *)
Definition blank (text : jsval) : jserror + bool :=
  if truthy text then
    match text with
    | VStr s => inr (negb (truthy (VStr (trim s))))
    | _ => inl (TypeError (lit "text.trim is not a function"))
    end
  else inr true.

Definition summarize (text tone maxSentences : jsval) : M jsval :=
  let tone := default_to (VStr (lit "precise")) tone in
  let maxSentences := default_to (VNum (Int 3)) maxSentences in
  b <- lift (blank text) ;;
  if b : bool then throw ValidationError
  else postJSON (lit "/summarize") (request text tone maxSentences).

End Http.

(** ** Calls into the platform shared by the service workers *)

Section Platform.
Variable h : host.

(** [await chrome.scripting.executeScript({ target: { tabId }, func, args })]
    for a function that renders into the page. *)
Definition executeScript (tabId : Z) (fn : injected) : M unit :=
  if injectable h tabId then emit (EvInject tabId fn)
  else throw (refusal h tabId).

(** The selection probe
    [() => (window.getSelection()?.toString() || '').trim()]
    run in the page. *)
Definition selection_probe (sel : option jsstring) : jsstring :=
  trim (match sel with
        | Some s => ToString (or_else (VStr s) (VStr []))
        | None => []
        end).

(** [const [{ result: selectedText }] =
      await chrome.scripting.executeScript(...)] *)
Definition probeSelection (tabId : Z) : M jsstring :=
  if injectable h tabId then ret (selection_probe (selection h tabId))
  else throw (refusal h tabId).

(** [await chrome.storage.sync.get(keys)] *)
Definition storage_get (keys : list jsstring) : M jsval :=
  ret (VObj (filter (fun kv => existsb (jsstring_eqb (fst kv)) keys)
                    (storage h))).

(** [tab?.id], with [None] when it is missing or falsy. *)
Definition tab_id (tab : option Z) : option Z :=
  match tab with
  | Some i => if truthy (VNum (Int i)) then Some i else None
  | None => None
  end.

Definition sendResponse (r : reply) : M unit := emit (EvSendResponse r).

End Platform.

Record menu_info := mkInfo {
  menuItemId : jsstring;
  selectionText : option jsstring
}.

Record message := mkMessage {
  msg_type : jsstring;
  msg_payload : jsval
}.

Definition loading_text : jsstring := lit "Summarizing" ++ [ellipsis].
Definition no_selection_text : jsstring := lit "No text selected.".
Definition no_summary_text : jsstring := lit "(no summary returned)".
Definition menu_id : jsstring := lit "summarize-selection".

(** [(info.selectionText || '').trim()] *)
Definition menu_selection (info : menu_info) : jsstring :=
  trim (match selectionText info with
        | Some s => ToString (or_else (VStr s) (VStr []))
        | None => []
        end).

(** ** src/extension/background.js *)

Module Background.

Definition cfg : config :=
  mkConfig (lit "https://summarize-selection.onrender.com") 3 600.

Section Worker.
Variable h : host.

Definition showBubble (tabId : Z) (text : jsval) (loading : bool)
  : M unit :=
  executeScript h tabId (UpsertSummaryBubble text loading).

Definition handleSummarizeInTab (tabId : Z) (selectedText : jsval)
  : M unit :=
  showBubble tabId (VStr loading_text) true ;;
  try_catch
    (prefs <- storage_get h [lit "tone"; lit "maxSentences"] ;;
     ptone <- lift (get_prop prefs (lit "tone")) ;;
     let tone := or_else ptone (VStr (lit "precise")) in
     pmax <- lift (get_prop prefs (lit "maxSentences")) ;;
     let maxSentences := VNum (clamp_maxSentences pmax) in
     result <- summarize h cfg selectedText tone maxSentences ;;
     summary <- lift (get_prop result (lit "summary")) ;;
     showBubble tabId (or_else summary (VStr no_summary_text)) false)
    (fun err =>
       showBubble tabId
         (VStr (lit "Error: " ++ String_of_error err)) false).

(** [chrome.contextMenus.onClicked] listener *)
Definition onClicked (info : menu_info) (tab : option Z) : M unit :=
  if negb (jsstring_eqb (menuItemId info) menu_id) then ret tt
  else
    match tab_id tab with
    | None => ret tt
    | Some id =>
        let selectedText := menu_selection info in
        if negb (truthy (VStr selectedText)) then
          showBubble id (VStr no_selection_text) false
        else handleSummarizeInTab id (VStr selectedText)
    end.

(** [chrome.commands.onCommand] listener *)
Definition onCommand (command : jsstring) : M unit :=
  if negb (jsstring_eqb command menu_id) then ret tt
  else
    match tab_id (active_tab h) with
    | None => ret tt
    | Some id =>
        try_catch
          (selectedText <- probeSelection h id ;;
           if negb (truthy (VStr selectedText)) then
             showBubble id (VStr no_selection_text) false
           else handleSummarizeInTab id (VStr selectedText))
          (fun err =>
             showBubble id
               (VStr (lit "Error: " ++ String_of_error err)) false)
    end.

(** [chrome.runtime.onMessage] listener *)
Definition onMessage (msg : message) : M unit :=
  if negb (jsstring_eqb (msg_type msg) (lit "SUMMARIZE_SELECTION"))
  then ret tt
  else
    try_catch
      (let payload := or_else (msg_payload msg) (VObj []) in
       text <- lift (get_prop payload (lit "text")) ;;
       ptone <- lift (get_prop payload (lit "tone")) ;;
       let tone := default_to (VStr (lit "precise")) ptone in
       pmax <- lift (get_prop payload (lit "maxSentences")) ;;
       let maxSentences := default_to (VNum (Int 3)) pmax in
       data <- summarize h cfg text tone maxSentences ;;
       sendResponse (ReplyOk data))
      (fun err => sendResponse (ReplyError (String_of_error err))).

End Worker.

End Background.

(** ** encodeURIComponent

    The string is read as UTF-16; an unpaired surrogate makes the call
    throw ([None]).  Every code point but the unreserved marks is written
    as the percent-escaped bytes of its UTF-8 form. *)

Definition is_high_surrogate (c : N) : bool :=
  ((55296 <=? c) && (c <=? 56319))%N.
Definition is_low_surrogate (c : N) : bool :=
  ((56320 <=? c) && (c <=? 57343))%N.

Fixpoint code_points (s : jsstring) : option (list N) :=
  match s with
  | [] => Some []
  | c :: r =>
      if is_low_surrogate c then None
      else if is_high_surrogate c then
        match r with
        | d :: r' =>
            if is_low_surrogate d then
              option_map
                (cons (65536 + (c - 55296) * 1024 + (d - 56320))%N)
                (code_points r')
            else None
        | [] => None
        end
      else option_map (cons c) (code_points r)
  end.

Definition utf8 (cp : N) : list N :=
  (if cp <? 128 then [cp]
   else if cp <? 2048 then [192 + cp / 64; 128 + cp mod 64]
   else if cp <? 65536 then
     [224 + cp / 4096; 128 + (cp / 64) mod 64; 128 + cp mod 64]
   else
     [240 + cp / 262144; 128 + (cp / 4096) mod 64;
      128 + (cp / 64) mod 64; 128 + cp mod 64])%N.

Definition hex_digit (d : N) : N :=
  (if d <? 10 then 48 + d else 55 + d)%N.

Definition percent (b : N) : jsstring :=
  [37%N; hex_digit (b / 16); hex_digit (b mod 16)].

Definition uri_unreserved (c : N) : bool :=
  (((65 <=? c) && (c <=? 90)) || ((97 <=? c) && (c <=? 122)) ||
   is_digit c ||
   (c =? 45) || (c =? 95) || (c =? 46) || (c =? 33) || (c =? 126) ||
   (c =? 42) || (c =? 39) || (c =? 40) || (c =? 41))%N.

Definition encode_point (cp : N) : jsstring :=
  if uri_unreserved cp then [cp] else flat_map percent (utf8 cp).

Definition encodeURIComponent (s : jsstring) : option jsstring :=
  option_map (flat_map encode_point) (code_points s).

(** A code unit that is not half of a surrogate pair. *)
Definition plain (c : N) : bool :=
  negb (is_low_surrogate c) && negb (is_high_surrogate c).

(** The string is well-formed UTF-16: it has no unpaired surrogate. *)
Definition well_formed (s : jsstring) : Prop := code_points s <> None.

(** ** src/unnamed/part_001: the other deployment of the service worker *)

Module Part001.

Definition cfg : config :=
  mkConfig (lit "https://dbb18930007f.ngrok-free.app") 3 500.

(** [text.replace(/&/g,"&amp;").replace(/</g,"&lt;").replace(/>/g,"&gt;")] *)
Definition escape_html (text : jsstring) : jsstring :=
  replace_all 62 (lit "&gt;")
    (replace_all 60 (lit "&lt;")
       (replace_all 38 (lit "&amp;") text)).

(** What the three replacements make of one code unit. *)
Definition escape_unit (c : N) : jsstring :=
  if (c =? 38)%N then lit "&amp;"
  else if (c =? 60)%N then lit "&lt;"
  else if (c =? 62)%N then lit "&gt;"
  else [c].

Definition html_head : jsstring :=
  [newline] ++ lit "      <!doctype html><meta charset=" ++ [dquote] ++
  lit "utf-8" ++ [dquote] ++ lit ">" ++ [newline] ++
  lit "      <title>Summary</title>" ++ [newline] ++
  lit "      <div style=" ++ [dquote] ++
  lit "font:14px/1.5 system-ui,-apple-system,Segoe UI,Roboto,Helvetica,Arial;margin:24px;max-width:800px" ++
  [dquote] ++ lit ">" ++ [newline] ++ lit "        <h1 style=" ++
  [dquote] ++ lit "font-size:18px;margin:0 0 10px" ++ [dquote] ++
  lit ">Summary</h1>" ++ [newline] ++ lit "        <pre style=" ++
  [dquote] ++
  lit "white-space:pre-wrap;background:#fafafa;padding:12px;border-radius:10px;border:1px solid #eee" ++
  [dquote] ++ lit ">".

Definition html_tail : jsstring :=
  lit "</pre>" ++ [newline] ++ lit "      </div>".

(** The template literal of the fallback document. *)
Definition fallback_html (text : jsstring) : jsstring :=
  html_head ++ escape_html text ++ html_tail.

Definition data_url_prefix : jsstring := lit "data:text/html;charset=utf-8,".

Section Worker.
Variable h : host.

(** The [catch] branch of [showBubbleInTab]. *)
Definition openFallback (text : jsval) : M unit :=
  match text with
  | VStr s =>
      match encodeURIComponent (fallback_html s) with
      | Some enc => emit (EvCreateTab (data_url_prefix ++ enc))
      | None => throw (URIError (lit "URI malformed"))
      end
  | _ => throw (TypeError (lit "text.replace is not a function"))
  end.

Definition showBubbleInTab (tabId : Z) (text : jsval) : M unit :=
  try_catch
    (executeScript h tabId (InPageRenderBubble text))
    (fun _ => openFallback text).

(** The [try] block shared, word for word, by the two listeners. *)
Definition summarizeAndShow (id : Z) (selectedText : jsstring) : M unit :=
  prefs <- storage_get h [lit "tone"; lit "maxSentences"] ;;
  ptone <- lift (get_prop prefs (lit "tone")) ;;
  let tone := or_else ptone (VStr (lit "precise")) in
  pmax <- lift (get_prop prefs (lit "maxSentences")) ;;
  let maxSentences := VNum (clamp_maxSentences pmax) in
  result <- summarize h cfg (VStr selectedText) tone maxSentences ;;
  summary <- lift (get_prop result (lit "summary")) ;;
  showBubbleInTab id (or_else summary (VStr no_summary_text)).

Definition showError (id : Z) (err : jserror) : M unit :=
  showBubbleInTab id (VStr (lit "Error: " ++ String_of_error err)).

(** [chrome.contextMenus.onClicked] listener *)
Definition onClicked (info : menu_info) (tab : option Z) : M unit :=
  if negb (jsstring_eqb (menuItemId info) menu_id) then ret tt
  else
    match tab_id tab with
    | None => ret tt
    | Some id =>
        let selectedText := menu_selection info in
        if negb (truthy (VStr selectedText)) then
          showBubbleInTab id (VStr no_selection_text)
        else
          try_catch (summarizeAndShow id selectedText) (showError id)
    end.

(** [chrome.commands.onCommand] listener *)
Definition onCommand (command : jsstring) : M unit :=
  if negb (jsstring_eqb command menu_id) then ret tt
  else
    match tab_id (active_tab h) with
    | None => ret tt
    | Some id =>
        (* [return showBubbleInTab(...)] hands the promise back
           without awaiting it: it settles outside the [try]. *)
        returned <-
          try_catch
            (selectedText <- probeSelection h id ;;
             if negb (truthy (VStr selectedText)) then ret true
             else summarizeAndShow id selectedText ;; ret false)
            (fun err => showError id err ;; ret false) ;;
        if returned : bool then
          showBubbleInTab id (VStr no_selection_text)
        else ret tt
    end.

(** [chrome.runtime.onMessage] listener *)
Definition onMessage (msg : message) : M unit :=
  if negb (jsstring_eqb (msg_type msg) (lit "SUMMARIZE_SELECTION"))
  then ret tt
  else
    try_catch
      (let payload := or_else (msg_payload msg) (VObj []) in
       text <- lift (get_prop payload (lit "text")) ;;
       ptone <- lift (get_prop payload (lit "tone")) ;;
       let tone := default_to (VStr (lit "precise")) ptone in
       pmax <- lift (get_prop payload (lit "maxSentences")) ;;
       let maxSentences := default_to (VNum (Int 3)) pmax in
       data <- summarize h cfg text tone maxSentences ;;
       sendResponse (ReplyOk data))
      (fun err => sendResponse (ReplyError (String_of_error err))).

End Worker.

End Part001.

(** ** src/unnamed/part_000: the control surface *)

Module Popup.

Definition friendly (msg : jsstring) : jsstring :=
  if includes msg (lit "429") then lit "Rate limited. Try again shortly."
  else if includes msg (lit "402")
          || includes (toLowerCase msg) (lit "quota")
  then lit "Billing/credits issue."
  else if includes msg (lit "502") then lit "Model is busy. Try again."
  else lit "Something went wrong.".

(** The body misses the three status markers and the word quota. *)
Definition unmarked (s : jsstring) : Prop :=
  includes s (lit "429") = false /\ includes s (lit "402") = false /\
  includes (toLowerCase s) (lit "quota") = false /\
  includes s (lit "502") = false.

(** What the popup shows: the status line and the output box, the
    latter written either as markup or as text. *)
Inductive output :=
| InnerHTML (markup : jsstring)
| TextContent (v : jsval).

Record view := mkView { statusEl : jsstring; outEl : output }.

Definition error_span (text : jsstring) : jsstring :=
  lit "<span class=" ++ [dquote] ++ lit "error" ++ [dquote] ++ lit ">"
    ++ text ++ lit "</span>".

(** The callback given to [chrome.runtime.sendMessage]; [resp] is
    [None] when no reply arrives. *)
Definition onResponse (resp : option reply) : jserror + view :=
  match resp with
  | Some (ReplyOk data) =>
      match get_prop data (lit "summary") with
      | inl e => inl e
      | inr summary => inr (mkView [] (TextContent summary))
      end
  | Some (ReplyError error) =>
      let msg := ToString (or_else (VStr error)
                                   (VStr (lit "Request failed"))) in
      inr (mkView [] (InnerHTML (error_span (friendly msg))))
  | None =>
      let msg := lit "Request failed" in
      inr (mkView [] (InnerHTML (error_span (friendly msg))))
  end.

(** The click handler up to the message it sends: the sentence count
    typed into the form is clamped, stored and put into the payload. *)
Definition payload_of (selectedText toneValue maxValue : jsstring)
  : message :=
  let tone := VStr toneValue in
  let maxSentences := VNum (clamp_maxSentences (VStr maxValue)) in
  mkMessage (lit "SUMMARIZE_SELECTION")
    (VObj [(lit "text", VStr selectedText); (lit "tone", tone);
           (lit "maxSentences", maxSentences)]).

End Popup.

(** ** The page: the injected renderers

    The document is the list of the children of [document.body], each a
    tree; a node is referred to by its path from the body.  Pixel
    positions are integers. *)

Module Dom.

Record style := mkStyle {
  opacity : jsstring;
  left : Z;
  top : Z;
  background : jsstring;
  color : jsstring
}.

Definition no_style : style := mkStyle [] 0 0 [] [].

Inductive node :=
| Text (data : jsstring)
| Element (id : jsstring) (st : style) (children : list node).

Definition document := list node.
Definition path := list nat.

(** What the renderer reads off [window]: the colour scheme, the
    left and top of the selection's bounding box (if there is a
    selection), and the scroll offsets. *)
Record window := mkWindow {
  prefersDark : bool;
  selectionRect : option (Z * Z);
  scrollX : Z;
  scrollY : Z
}.

Definition find_first {A} (f : A -> option path)
  : list A -> nat -> option path :=
  fix go (l : list A) (k : nat) : option path :=
    match l with
    | [] => None
    | x :: r =>
        match f x with
        | Some p => Some (k :: p)
        | None => go r (S k)
        end
    end.

Fixpoint find_node (i : jsstring) (n : node) : option path :=
  match n with
  | Text _ => None
  | Element j _ kids =>
      if jsstring_eqb i j then Some []
      else find_first (find_node i) kids 0%nat
  end.

(** [document.getElementById(i)]: the first element in document order. *)
Definition getElementById (i : jsstring) (doc : document) : option path :=
  find_first (find_node i) doc 0%nat.

Fixpoint update_nth {A} (k : nat) (f : A -> A) (l : list A) : list A :=
  match l, k with
  | [], _ => []
  | x :: r, O => f x :: r
  | x :: r, S k' => x :: update_nth k' f r
  end.

Fixpoint update_node (p : path) (f : node -> node) (n : node) : node :=
  match p with
  | [] => f n
  | k :: p' =>
      match n with
      | Element j st kids => Element j st (update_nth k (update_node p' f) kids)
      | Text _ => n
      end
  end.

Definition update_at (p : path) (f : node -> node) (doc : document)
  : document :=
  match p with
  | [] => doc
  | k :: p' => update_nth k (update_node p' f) doc
  end.

(** [n.textContent = s] *)
Definition set_textContent (s : jsstring) (n : node) : node :=
  match n with
  | Element j st _ =>
      Element j st (match s with [] => [] | _ => [Text s] end)
  | Text _ => Text s
  end.

(** [n.style.opacity = o] *)
Definition set_opacity (o : jsstring) (n : node) : node :=
  match n with
  | Element j st kids =>
      Element j (mkStyle o (left st) (top st) (background st) (color st))
              kids
  | Text _ => n
  end.

Fixpoint count_id (i : jsstring) (n : node) : nat :=
  match n with
  | Text _ => 0
  | Element j _ kids =>
      ((if jsstring_eqb i j then 1 else 0)
       + list_sum (map (count_id i) kids))%nat
  end.

(** How many elements of the document carry the id. *)
Definition count_elements (i : jsstring) (doc : document) : nat :=
  list_sum (map (count_id i) doc).

Fixpoint is_prefix (p q : path) : bool :=
  match p, q with
  | [], _ => true
  | _ :: _, [] => false
  | a :: p', b :: q' => Nat.eqb a b && is_prefix p' q'
  end.

Definition bubble_id : jsstring := lit "summarize-bubble".
Definition bubble_body_id : jsstring := bubble_id ++ lit "-body".

Definition button (label : jsstring) : node :=
  Element [] no_style [Text label].

(** The header: its title, then the Copy and close buttons. *)
Definition header : node :=
  Element [] (mkStyle (lit "0.85") 0 0 [] [])
    [Text (lit "Summary");
     Element [] no_style [button (lit "Copy"); button [215%N]]].

(** src/extension/background.js: the element built when the page has
    no bubble yet, as it is when appended (its body still empty). *)
Definition new_bubble (w : window) : node :=
  let bg := if prefersDark w then lit "#151516" else lit "#ffffff" in
  let fg := if prefersDark w then lit "#e7e7ea" else lit "#111111" in
  let l := Z.max 12 (match selectionRect w with
                     | Some (rl, _) => rl + scrollX w
                     | None => 24
                     end) in
  let t := Z.max 12 (match selectionRect w with
                     | Some (_, rt) => rt + scrollY w - 12
                     | None => 24
                     end) in
  Element bubble_id (mkStyle [] l t bg fg)
    [header; Element bubble_body_id no_style []].

Definition upsertSummaryBubble (w : window) (text : jsstring)
    (loading : bool) (doc : document) : document :=
  let '(el, doc1) :=
    match getElementById bubble_id doc with
    | Some p => (p, doc)
    | None => ([List.length doc], doc ++ [new_bubble w])
    end in
  let '(body, doc2) :=
    match getElementById bubble_body_id doc1 with
    | Some pb => (Some pb, update_at pb (set_textContent text) doc1)
    | None => (None, doc1)
    end in
  let o := if loading then lit "0.75" else lit "1" in
  (* [el] has left the document if the node just rewritten was one of
     its ancestors *)
  match body with
  | Some pb =>
      if is_prefix pb el then doc2 else update_at el (set_opacity o) doc2
  | None => update_at el (set_opacity o) doc2
  end.

(** src/unnamed/part_001: a new overlay on every call.  (The removal
    it schedules for 20 s later is not part of the call.) *)
Definition inPageRenderBubble (w : window) (summaryText : jsstring)
    (doc : document) : document :=
  let bg := if prefersDark w then lit "#151516" else lit "#ffffff" in
  let fg := if prefersDark w then lit "#e7e7ea" else lit "#111111" in
  let content := set_textContent summaryText (Element [] no_style []) in
  let t := (match selectionRect w with
            | Some (_, rt) => rt + scrollY w
            | None => 30
            end) - 12 in
  let l := match selectionRect w with
           | Some (rl, _) => rl + scrollX w
           | None => 30
           end in
  let el := Element [] (mkStyle [] (Z.max 12 l) (Z.max 12 t) bg fg)
              [header; content] in
  doc ++ [el].

(** The bubble of [upsertSummaryBubble] as it stands after a call with
    [text] and [loading], built under window [w]. *)
Definition bubble_showing (w : window) (text : jsstring) (loading : bool)
  : node :=
  set_opacity (if loading then lit "0.75" else lit "1")
    (update_node [1%nat] (set_textContent text) (new_bubble w)).

(** The text an overlay shows: the text of its second child. *)
Definition overlay_text (n : node) : option jsstring :=
  match n with
  | Element _ _ [_; Element _ _ [Text s]] => Some s
  | Element _ _ [_; Element _ _ []] => Some []
  | _ => None
  end.

End Dom.

(** ** Describing runs of the HTTP helper *)

Section HttpRuns.
Variable h : host.
Variable cfg : config.
Variables (path : jsstring) (payload : jsval).

(** The n-th fetch of the run is answered with status 429. *)
Definition rate_limited (n : nat) : Prop :=
  exists r, server h n (API_BASE cfg ++ path) payload = Responded r /\
            status r = 429.

(** [k] rounds of request and wait, the wait doubling from [delay]. *)
Fixpoint backoff (k : nat) (delay : Z) : list event :=
  match k with
  | O => []
  | S k' => EvFetch (API_BASE cfg ++ path) payload :: EvSleep delay
              :: backoff k' (delay * 2)
  end.

(** What the helper makes of the response it stops at. *)
Definition settle (r : response) : outcome jsval :=
  if ok r then
    match JSON_parse h (body r) with
    | Some v => Ret v
    | None => Throw (ParseError (body r))
    end
  else Throw (HttpError (status r) (body r)).

(** The event is a fetch of the helper's URL with its payload, or a
    wait. *)
Definition network_event (e : event) : Prop :=
  e = EvFetch (API_BASE cfg ++ path) payload \/ exists ms, e = EvSleep ms.

End HttpRuns.

(** ** Reading a trace *)

(** The [maxSentences] field of a request payload. *)
Definition payload_maxSentences (p : jsval) : jsval :=
  match p with
  | VObj props => lookup (lit "maxSentences") props
  | _ => VUndefined
  end.

(** The [maxSentences] field of the request body
    [JSON.stringify(payload)], as the service reads it. *)
Definition body_maxSentences (payload : jsval) : jsval :=
  payload_maxSentences (wire payload).

(** The sentence counts sent to the service, one for each fetch. *)
Fixpoint sent_maxSentences (t : list event) : list jsval :=
  match t with
  | [] => []
  | EvFetch _ p :: r => body_maxSentences p :: sent_maxSentences r
  | _ :: r => sent_maxSentences r
  end.

(** The texts put into the in-page bubble, in order. *)
Fixpoint shown (t : list event) : list jsval :=
  match t with
  | [] => []
  | EvInject _ (UpsertSummaryBubble text _) :: r => text :: shown r
  | EvInject _ (InPageRenderBubble text) :: r => text :: shown r
  | _ :: r => shown r
  end.

(** The number of fetches in a trace. *)
Fixpoint fetches (t : list event) : nat :=
  match t with
  | [] => 0
  | EvFetch _ _ :: r => S (fetches r)
  | _ :: r => fetches r
  end.

(** A value that is an integer between 1 and 10. *)
Definition in_range (v : jsval) : Prop :=
  exists z, v = VNum (Int z) /\ 1 <= z <= 10.

(** The event, if it is a fetch, sends [m] as the sentence count. *)
Definition sends (m : jsval) (e : event) : Prop :=
  match e with
  | EvFetch _ p => body_maxSentences p = m
  | _ => True
  end.

(** The event is not a fetch. *)
Definition offline (e : event) : Prop :=
  match e with
  | EvFetch _ _ => False
  | _ => True
  end.

(** The event is a fetch or a wait. *)
Definition network (e : event) : Prop :=
  match e with
  | EvFetch _ _ | EvSleep _ => True
  | _ => False
  end.

(** [prefs.maxSentences] as the store holds it. *)
Definition stored_maxSentences (h : host) : jsval :=
  lookup (lit "maxSentences") (storage h).

(** The text the menu and shortcut listeners put into the bubble once
    the request has settled with outcome [o]: the summary, or the
    placeholder when it is falsy, or the error as a string. *)
Definition final_text (o : outcome jsval) : jsval :=
  match o with
  | Ret result =>
      match get_prop result (lit "summary") with
      | inr summary => or_else summary (VStr no_summary_text)
      | inl e => VStr (lit "Error: " ++ String_of_error e)
      end
  | Throw e => VStr (lit "Error: " ++ String_of_error e)
  | Diverge => VUndefined
  end.

(** What a run of [handleSummarizeInTab] in tab [id] looks like when
    its request settles with outcome [o]: it returns, the first thing
    done is the loading bubble, the last is the bubble with the text
    that [o] comes to, and in between there are only requests and
    waits. *)
Definition loading_then_settled (id : Z) (o : outcome jsval)
    (r : outcome unit * world) : Prop :=
  exists net,
    fst r = Ret tt /\
    trace (snd r) =
      [EvInject id (UpsertSummaryBubble (VStr loading_text) true)]
        ++ net
        ++ [EvInject id (UpsertSummaryBubble (final_text o) false)] /\
    Forall network net /\
    o <> Diverge.

(** [prefs.tone] as the store holds it. *)
Definition stored_tone (h : host) : jsval :=
  lookup (lit "tone") (storage h).

(** The payload the menu and shortcut listeners build for a selection. *)
Definition effective_request (h : host) (sel : jsstring) : jsval :=
  request (VStr sel)
    (or_else (stored_tone h) (VStr (lit "precise")))
    (VNum (clamp_maxSentences (stored_maxSentences h))).

(** Asked by a deployment for a summary of [sel], the service answers
    429 [k] times, [k] at most 3, and then [r]. *)
Definition answers (h : host) (cfg : config) (sel : jsstring)
    (k : nat) (r : response) : Prop :=
  (k <= 3)%nat /\
  (forall i, (i < k)%nat ->
     rate_limited h cfg (lit "/summarize") (effective_request h sel) i) /\
  server h k (API_BASE cfg ++ lit "/summarize") (effective_request h sel)
  = Responded r.

(** The context menu was clicked in tab [id] with [sel] selected (as
    trimmed by the listener). *)
Definition menu_trigger (info : menu_info) (tab : option Z)
    (id : Z) (sel : jsstring) : Prop :=
  menuItemId info = menu_id /\ tab_id tab = Some id /\
  menu_selection info = sel.

(** The shortcut was pressed while tab [id] was active, and the probe
    run in it came back with [sel]. *)
Definition shortcut_trigger (h : host) (id : Z) (sel : jsstring) : Prop :=
  tab_id (active_tab h) = Some id /\ injectable h id = true /\
  selection_probe (selection h id) = sel.

(** The request the menu and shortcut listeners of a deployment make
    for a selection, run after the events [before]: the call of
    [summarize] with the stored tone and the clamped stored count. *)
Definition request_outcome (h : host) (cfg : config) (sel : jsstring)
    (before : list event) : outcome jsval :=
  fst (summarize h cfg (VStr sel)
         (or_else (stored_tone h) (VStr (lit "precise")))
         (VNum (clamp_maxSentences (stored_maxSentences h)))
         (mkWorld 0 before)).

(** ** The page under a trace *)

(** The string the [textContent] setter makes of the value assigned:
    nothing of [null] and [undefined], its string of anything else. *)
Definition text_of (v : jsval) : jsstring :=
  match v with
  | VUndefined | VNull => []
  | _ => ToString v
  end.

(** An injected function run in a page whose window is [w], on the
    arguments it was injected with. *)
Definition run_injected (w : Dom.window) (fn : injected)
    (doc : Dom.document) : Dom.document :=
  match fn with
  | UpsertSummaryBubble text loading =>
      Dom.upsertSummaryBubble w (text_of text) loading doc
  | InPageRenderBubble text => Dom.inPageRenderBubble w (text_of text) doc
  end.

(** The states the page of tab [id] goes through under a trace: the
    page after each injection into that tab, [win n] being the window
    at the [n]-th of them. *)
Fixpoint pages (win : nat -> Dom.window) (id : Z) (n : nat)
    (t : list event) (doc : Dom.document) : list Dom.document :=
  match t with
  | [] => []
  | EvInject tab fn :: r =>
      if tab =? id then
        let doc' := run_injected (win n) fn doc in
        doc' :: pages win id (S n) r doc'
      else pages win id n r doc
  | _ :: r => pages win id n r doc
  end.

(** Under the run [r], on any page that does not use the bubble's two
    ids, the bubble of background.js in tab [id] is built once and then
    shows the [texts] one after the other, each with its loading flag. *)
Definition bubble_goes (id : Z) (texts : list (jsstring * bool))
    (r : outcome unit * world) : Prop :=
  forall win doc,
    Dom.count_elements Dom.bubble_id doc = 0%nat ->
    Dom.count_elements Dom.bubble_body_id doc = 0%nat ->
    pages win id 0 (trace (snd r)) doc
    = map (fun tl => doc ++ [Dom.bubble_showing (win 0%nat) (fst tl) (snd tl)])
          texts.

(** Under the run [r] the renderer of part_001 is run once in tab [id],
    adding an overlay with [text] to whatever page is there. *)
Definition overlay_added (id : Z) (text : jsstring)
    (r : outcome unit * world) : Prop :=
  forall win doc,
    pages win id 0 (trace (snd r)) doc
    = [Dom.inPageRenderBubble (win 0%nat) text doc].

(** What the overlays of a page show, in document order. *)
Definition overlays (doc : Dom.document) : list jsstring :=
  flat_map (fun n => match Dom.overlay_text n with
                     | Some s => [s]
                     | None => []
                     end) doc.

(** ** Hosts for the worked examples *)

Module Demo.

(** The body [{"summary":"X"}]. *)
Definition body_X : jsstring :=
  lit "{" ++ [dquote] ++ lit "summary" ++ [dquote] ++ lit ":" ++
  [dquote] ++ lit "X" ++ [dquote] ++ lit "}".

(** [JSON.parse] on the bodies the examples use. *)
Definition parse (s : jsstring) : option jsval :=
  if jsstring_eqb s body_X then
    Some (VObj [(lit "summary", VStr (lit "X"))])
  else if jsstring_eqb s (lit "{}") then Some (VObj [])
  else if jsstring_eqb s (lit "null") then Some VNull
  else None.

Definition refused : jserror :=
  Error (lit "Cannot access contents of the page.").

(** A host whose server gives the n-th answer of [answers], whose
    storage holds [stored], whose tabs all accept injection or all
    refuse it, and whose active tab 7 has selection [sel]. *)
Definition host_of (answers : nat -> response)
    (stored : list (jsstring * jsval)) (inject : bool)
    (sel : option jsstring) : host :=
  mkHost parse (fun n _ _ => Responded (answers n)) stored
         (fun _ => inject) (fun _ => refused) (fun _ => sel) (Some 7).

Definition always (r : response) : nat -> response := fun _ => r.

Definition busy : response := mkResponse 429 (lit "slow down").
Definition summary_X : response := mkResponse 200 body_X.
Definition garbled : response := mkResponse 200 (lit "<html>").


(** A healthy host whose store holds [v] as the sentence count and whose
    active tab has "hello" selected. *)
Definition storing (v : jsval) : host :=
  host_of (always summary_X) [(lit "maxSentences", v)] true
          (Some (lit "hello")).

(** A page with "hello" selected, nothing stored, and a server that
    answers every request with [r]. *)
Definition page (r : response) : host :=
  host_of (always r) [] true (Some (lit "hello")).

(** A light page, scrolled to the top, with nothing selected. *)
Definition plain_window : Dom.window := Dom.mkWindow false None 0 0.

(** A click on the extension's menu item over the selection [s]. *)
Definition click (s : jsstring) : menu_info := mkInfo menu_id (Some s).

(** A request from another context that asks for 99 sentences. *)
Definition ask_99 : message :=
  mkMessage (lit "SUMMARIZE_SELECTION")
    (VObj [(lit "text", VStr (lit "hello"));
           (lit "maxSentences", VNum (Int 99))]).
Definition garbled_host : host := host_of (always garbled) [] true None.

(** A page with "hello" selected that refuses every injection, against
    a server that summarizes everything as X. *)
Definition restricted_page : host :=
  host_of (always summary_X) [] false (Some (lit "hello")).

(** A page with "hello" selected and a server that answers every
    request with the JSON text [null]. *)
Definition null_page : host := page (mkResponse 200 (lit "null")).

(** A text that ends in half a surrogate pair. *)
Definition half_pair : jsstring := lit "a" ++ [55357%N].
Definition healthy_host : host := host_of (always summary_X) [] true None.

End Demo.

Example parseInt10_ex1 : parseInt10 (lit " 42px") = Int 42.
Proof. reflexivity. Qed.
Example parseInt10_ex2 : parseInt10 (lit "-7") = Int (-7).
Proof. reflexivity. Qed.
Example parseInt10_ex3 : parseInt10 (lit "abc") = NaN.
Proof. reflexivity. Qed.
Example decimal_ex : decimal 429 = lit "429" /\ decimal 0 = lit "0" /\
                     decimal (-3) = lit "-3".
Proof. repeat split; reflexivity. Qed.
Example number_to_string_ex :
  number_to_string (Int 99) = lit "99" /\
  number_to_string (Int (-3)) = lit "-3" /\
  number_to_string (Finite false 25 (-1)) = lit "2.5" /\
  number_to_string (Finite true 0 0) = lit "0" /\
  number_to_string (Finite false 15 (-6)) = lit "0.000015" /\
  number_to_string (Finite false 1 (-6)) = lit "0.000001" /\
  number_to_string (Finite false 5 (-7)) = lit "5e-7" /\
  number_to_string (Finite false 123 (-9)) = lit "1.23e-7" /\
  number_to_string (Int (10 ^ 20)) = lit "100000000000000000000" /\
  number_to_string (Int (10 ^ 21)) = lit "1e+21" /\
  number_to_string (Finite true 12 20) = lit "-1.2e+21" /\
  number_to_string (Infinity true) = lit "-Infinity".
Proof. repeat split; vm_compute; reflexivity. Qed.
Example JSON_value_ex :
  wire (VObj [(lit "a", VNum NaN); (lit "b", VUndefined);
              (lit "c", VArr [VUndefined; VNum (Infinity false)])])
  = VObj [(lit "a", VNull); (lit "c", VArr [VNull; VNull])].
Proof. reflexivity. Qed.
Example trim_ex : trim (lit "  a b  ") = lit "a b".
Proof. reflexivity. Qed.

(** * Facts *)

(** ** Strings *)

Lemma jsstring_eqb_refl (a : jsstring) : jsstring_eqb a a = true.
Proof.
  induction a as [|x a IH]; simpl; [reflexivity|].
  now rewrite N.eqb_refl, IH.
Qed.

Lemma jsstring_eqb_eq (a b : jsstring) : jsstring_eqb a b = true <-> a = b.
Proof.
  split.
  - revert b; induction a as [|x a IH]; intros [|y b]; simpl;
      try discriminate; [reflexivity|].
    intros H; apply andb_true_iff in H as [Hx Hr].
    apply N.eqb_eq in Hx; subst; f_equal; now apply IH.
  - intros ->; apply jsstring_eqb_refl.
Qed.

Lemma trimStart_blank (s : jsstring) :
  forallb is_ws s = true -> trimStart s = [].
Proof.
  induction s as [|c r IH]; simpl; [reflexivity|].
  intros H; apply andb_true_iff in H as [Hc Hr].
  now rewrite Hc; apply IH.
Qed.

Lemma trim_blank (s : jsstring) : forallb is_ws s = true -> trim s = [].
Proof.
  intros H; unfold trim, trimEnd.
  now rewrite (trimStart_blank s H).
Qed.

Lemma trimStart_nil_blank (s : jsstring) :
  trimStart s = [] -> forallb is_ws s = true.
Proof.
  induction s as [|c r IH]; simpl; [reflexivity|].
  destruct (is_ws c); [exact IH | discriminate].
Qed.

Lemma trimStart_suffix (s : jsstring) :
  exists pre, s = pre ++ trimStart s /\ forallb is_ws pre = true.
Proof.
  induction s as [|c r [pre [E B]]]; simpl.
  - now exists [].
  - destruct (is_ws c) eqn:Hc.
    + exists (c :: pre); simpl; rewrite Hc, B; split; [now f_equal|reflexivity].
    + now exists [].
Qed.

(** [trim] leaves nothing exactly when the string is blank. *)
Lemma trim_nil_iff (s : jsstring) : trim s = [] <-> forallb is_ws s = true.
Proof.
  split; [|apply trim_blank].
  unfold trim, trimEnd; intros H.
  destruct (trimStart_suffix s) as [pre [E B]].
  assert (R : rev (rev (trimStart (rev (trimStart s)))) = rev [])
    by now rewrite H.
  rewrite rev_involutive in R; simpl in R.
  apply trimStart_nil_blank in R.
  rewrite E, forallb_app, B; simpl.
  rewrite forallb_forall in *; intros x Hx; apply R.
  now apply in_rev; rewrite rev_involutive.
Qed.

Lemma trimStart_head (s : jsstring) c r :
  trimStart s = c :: r -> is_ws c = false.
Proof.
  induction s as [|x s IH]; simpl; [discriminate|].
  destruct (is_ws x) eqn:Hx; [exact IH|].
  now intros E; injection E as <- _.
Qed.

Lemma trimStart_fixed (s : jsstring) :
  match s with [] => True | c :: _ => is_ws c = false end ->
  trimStart s = s.
Proof. destruct s as [|c r]; simpl; [reflexivity|now intros ->]. Qed.

Lemma trimStart_idempotent (s : jsstring) :
  trimStart (trimStart s) = trimStart s.
Proof.
  apply trimStart_fixed.
  destruct (trimStart s) as [|c r] eqn:E; [exact I|].
  exact (trimStart_head s c r E).
Qed.

(** What [trim] leaves neither starts nor ends with whitespace, so
    trimming it again changes nothing. *)
Lemma trim_idempotent (s : jsstring) : trim (trim s) = trim s.
Proof.
  unfold trim, trimEnd.
  set (t := trimStart s); set (u := trimStart (rev t)).
  assert (Hu : trimStart (rev u) = rev u).
  { apply trimStart_fixed.
    destruct (rev u) as [|c r] eqn:E; [exact I|].
    destruct (trimStart_suffix (rev t)) as [pre [Ep _]]; fold u in Ep.
    assert (Et : t = rev u ++ rev pre)
      by now rewrite <- rev_app_distr, <- Ep, rev_involutive.
    rewrite E in Et; apply (trimStart_head s c (r ++ rev pre)); exact Et. }
  rewrite Hu, rev_involutive; unfold u.
  now rewrite trimStart_idempotent.
Qed.

(** [includes] finds every occurrence. *)
Lemma starts_with_app (n rest : jsstring) : starts_with n (n ++ rest) = true.
Proof.
  induction n as [|x n IH]; simpl; [reflexivity|].
  now rewrite N.eqb_refl.
Qed.

Lemma includes_unfold (hay n : jsstring) :
  includes hay n =
  starts_with n hay || match hay with [] => false | _ :: t => includes t n end.
Proof. now destruct hay. Qed.

Lemma includes_occurrence (pre n post : jsstring) :
  includes (pre ++ n ++ post) n = true.
Proof.
  induction pre as [|x pre IH]; simpl.
  - now rewrite includes_unfold, starts_with_app.
  - rewrite IH; apply orb_true_r.
Qed.

Lemma may_start_false (n b t : jsstring) :
  may_start n b = false -> starts_with n (b ++ t) = false.
Proof.
  revert b; induction n as [|x n IH]; intros [|y b]; simpl;
    try discriminate.
  destruct (x =? y)%N; simpl; [apply IH | reflexivity].
Qed.

(** A search skips a prefix in which no occurrence can begin. *)
Lemma includes_clear (n p t : jsstring) :
  clear n p = true -> includes (p ++ t) n = includes t n.
Proof.
  induction p as [|c p IH]; [reflexivity|].
  cbn [clear]; intros H; apply andb_true_iff in H as [H1 H2].
  apply negb_true_iff in H1.
  change ((c :: p) ++ t) with (c :: (p ++ t)); cbn [includes].
  change (c :: (p ++ t)) with ((c :: p) ++ t).
  now rewrite (may_start_false n (c :: p) t H1), IH.
Qed.

Lemma toLowerCase_app (a b : jsstring) :
  toLowerCase (a ++ b) = toLowerCase a ++ toLowerCase b.
Proof. apply map_app. Qed.

(** ** Numbers *)

Lemma Math_min_Int a z : Math_min a (Int z) = Int (Z.min a z).
Proof.
  unfold Math_min, Int, scaled.
  change (10 ^ Z.max 0 0) with 1; change (10 ^ Z.max 0 (- 0)) with 1.
  replace ((if z <? 0 then -1 else 1) * Z.of_N (Z.abs_N z) * 1) with z
    by (rewrite N2Z.inj_abs_N; destruct (Z.ltb_spec z 0); lia).
  rewrite Z.mul_1_r.
  destruct (Z.ltb_spec z a);
    [rewrite Z.min_r by lia | rewrite Z.min_l by lia]; reflexivity.
Qed.

Lemma Math_max_Int a z : Math_max a (Int z) = Int (Z.max a z).
Proof.
  unfold Math_max, Int, scaled.
  change (10 ^ Z.max 0 0) with 1; change (10 ^ Z.max 0 (- 0)) with 1.
  replace ((if z <? 0 then -1 else 1) * Z.of_N (Z.abs_N z) * 1) with z
    by (rewrite N2Z.inj_abs_N; destruct (Z.ltb_spec z 0); lia).
  rewrite Z.mul_1_r.
  destruct (Z.ltb_spec a z);
    [rewrite Z.max_r by lia | rewrite Z.max_l by lia]; reflexivity.
Qed.

Lemma Int_inj a b : Int a = Int b -> a = b.
Proof.
  unfold Int; intros E; injection E as S A.
  assert (Z.abs a = Z.abs b)
    by (rewrite <- !N2Z.inj_abs_N; now f_equal).
  destruct (Z.ltb_spec a 0), (Z.ltb_spec b 0); try discriminate; lia.
Qed.

(** [parseInt] gives [NaN] or an integer. *)
Lemma parseInt10_cases s : parseInt10 s = NaN \/ exists z, parseInt10 s = Int z.
Proof.
  unfold parseInt10.
  destruct (match trimStart s with
            | [] => (1, trimStart s)
            | c :: r => if (c =? 45)%N then (-1, r)
                        else if (c =? 43)%N then (1, r)
                        else (1, trimStart s)
            end) as [sign rest].
  destruct (parse_digits rest) as [v|]; [right; now eexists | now left].
Qed.

(** What the clamp makes of the number [parseInt] finds, and what the
    request body carries of it. *)
Lemma clamp_of_Int raw z :
  parseInt (or_else raw (VStr (lit "3"))) = Int z ->
  clamp_maxSentences raw = Int (Z.max 1 (Z.min 10 z)).
Proof.
  intros H; unfold clamp_maxSentences.
  now rewrite H, Math_min_Int, Math_max_Int.
Qed.

Lemma wire_clamped z :
  1 <= z -> wire (VNum (Int z)) = VNum (Int z).
Proof.
  intros H; unfold wire, Int; cbn [JSON_value].
  destruct (N.eqb_spec (Z.abs_N z) 0) as [E|E]; [|reflexivity].
  assert (Z.abs z = 0) by (rewrite <- N2Z.inj_abs_N, E; reflexivity).
  lia.
Qed.

(** ** The effect monad *)

Lemma world_eta (w : world) : mkWorld (fetched w) (trace w) = w.
Proof. now destruct w. Qed.

Lemma appends_ret {A} Q (a : A) : appends Q (ret a).
Proof. intros w; exists []; simpl; now rewrite app_nil_r. Qed.

Lemma appends_throw {A} Q e : appends Q (@throw A e).
Proof. intros w; exists []; simpl; now rewrite app_nil_r. Qed.

Lemma appends_diverge {A} Q : appends Q (@diverge A).
Proof. intros w; exists []; simpl; now rewrite app_nil_r. Qed.

Lemma appends_lift {A} Q (r : jserror + A) : appends Q (lift r).
Proof. destruct r; [apply appends_throw | apply appends_ret]. Qed.

Lemma appends_emit Q e : Q e -> appends Q (emit e).
Proof. intros H w; exists [e]; simpl; split; [reflexivity|now constructor]. Qed.

Lemma appends_bind {A B} Q (c : M A) (k : A -> M B) :
  appends Q c -> (forall a, appends Q (k a)) -> appends Q (bind c k).
Proof.
  intros Hc Hk w; unfold bind.
  destruct (Hc w) as [e1 [E1 F1]].
  destruct (c w) as [[a|e|] w1]; simpl in *.
  - destruct (Hk a w1) as [e2 [E2 F2]].
    exists (e1 ++ e2); rewrite E2, E1, app_assoc; split; [reflexivity|].
    now apply Forall_app.
  - now exists e1.
  - now exists e1.
Qed.

Lemma appends_try_catch {A} Q (c : M A) (k : jserror -> M A) :
  appends Q c -> (forall e, appends Q (k e)) -> appends Q (try_catch c k).
Proof.
  intros Hc Hk w; unfold try_catch.
  destruct (Hc w) as [e1 [E1 F1]].
  destruct (c w) as [[a|e|] w1]; simpl in *.
  - now exists e1.
  - destruct (Hk e w1) as [e2 [E2 F2]].
    exists (e1 ++ e2); rewrite E2, E1, app_assoc; split; [reflexivity|].
    now apply Forall_app.
  - now exists e1.
Qed.

Lemma appends_weaken {A} (Q Q' : event -> Prop) (c : M A) :
  (forall e, Q e -> Q' e) -> appends Q c -> appends Q' c.
Proof.
  intros I H w; destruct (H w) as [evs [E F]].
  exists evs; split; [exact E|].
  eapply Forall_impl; eauto.
Qed.

Lemma returns_bind {A B} (c : M A) (k : A -> M B) :
  returns c -> (forall a, returns (k a)) -> returns (bind c k).
Proof.
  intros Hc Hk w; unfold bind.
  specialize (Hc w).
  destruct (c w) as [[a|e|] w1]; simpl in *;
    [apply Hk | discriminate | congruence].
Qed.

Lemma returns_try_catch {A} (c : M A) (k : jserror -> M A) :
  returns c -> (forall e, returns (k e)) -> returns (try_catch c k).
Proof.
  intros Hc Hk w; unfold try_catch.
  specialize (Hc w).
  destruct (c w) as [[a|e|] w1]; simpl in *;
    [discriminate | apply Hk | congruence].
Qed.

Lemma returns_ret {A} (a : A) : returns (ret a).
Proof. intros w; discriminate. Qed.

Lemma returns_throw {A} e : returns (@throw A e).
Proof. intros w; discriminate. Qed.

Lemma returns_lift {A} (r : jserror + A) : returns (lift r).
Proof. destruct r; [apply returns_throw | apply returns_ret]. Qed.

Lemma returns_emit e : returns (emit e).
Proof. intros w; discriminate. Qed.

(** ** The HTTP helper *)

Section HttpFacts.
Variable h : host.
Variable cfg : config.
Variables (path : jsstring) (payload : jsval).

Lemma loop_step_429 fuel attempt delay w r :
  server h (fetched w) (API_BASE cfg ++ path) payload = Responded r ->
  status r = 429 ->
  attempt < MAX_RETRIES cfg ->
  postJSON_loop h cfg (S fuel) path payload attempt delay w =
  postJSON_loop h cfg fuel path payload (attempt + 1) (delay * 2)
    (mkWorld (S (fetched w))
       (trace w ++ [EvFetch (API_BASE cfg ++ path) payload; EvSleep delay])).
Proof.
  intros Hs H429 Hlt.
  cbn [postJSON_loop]; unfold bind at 1, fetch at 1.
  rewrite Hs.
  unfold ok; rewrite H429; cbn [andb Z.leb Z.compare Pos.compare
                                 Pos.compare_cont Z.eqb Pos.eqb].
  simpl (200 <=? 429); simpl (429 <=? 299); cbn [andb].
  apply Z.ltb_lt in Hlt; rewrite Hlt; cbn [andb].
  unfold bind, sleep, emit; cbn [fetched trace].
  now rewrite <- app_assoc.
Qed.

Lemma loop_stop fuel attempt delay w r :
  server h (fetched w) (API_BASE cfg ++ path) payload = Responded r ->
  ok r = true \/ status r <> 429 \/ MAX_RETRIES cfg <= attempt ->
  postJSON_loop h cfg (S fuel) path payload attempt delay w =
  (settle h r,
   mkWorld (S (fetched w))
           (trace w ++ [EvFetch (API_BASE cfg ++ path) payload])).
Proof.
  intros Hs Hstop.
  cbn [postJSON_loop]; unfold bind at 1, fetch at 1.
  rewrite Hs; unfold settle.
  destruct (ok r) eqn:Hok.
  - now destruct (JSON_parse h (body r)).
  - assert (G : (status r =? 429) && (attempt <? MAX_RETRIES cfg) = false).
    { destruct Hstop as [Hk|[Hn|Hm]]; [discriminate| |].
      - apply Z.eqb_neq in Hn; now rewrite Hn.
      - apply Z.ltb_ge in Hm; rewrite Hm; apply andb_false_r. }
    now rewrite G.
Qed.

Lemma loop_reject fuel attempt delay w e :
  server h (fetched w) (API_BASE cfg ++ path) payload = Rejected e ->
  postJSON_loop h cfg (S fuel) path payload attempt delay w =
  (Throw e,
   mkWorld (S (fetched w))
           (trace w ++ [EvFetch (API_BASE cfg ++ path) payload])).
Proof.
  intros Hs; cbn [postJSON_loop]; unfold bind at 1, fetch at 1.
  now rewrite Hs.
Qed.

Lemma loop_retries k : forall fuel attempt delay w,
  (forall i, (i < k)%nat -> rate_limited h cfg path payload (fetched w + i)) ->
  attempt + Z.of_nat k <= MAX_RETRIES cfg ->
  postJSON_loop h cfg (k + fuel) path payload attempt delay w =
  postJSON_loop h cfg fuel path payload
    (attempt + Z.of_nat k) (delay * 2 ^ Z.of_nat k)
    (mkWorld (fetched w + k) (trace w ++ backoff cfg path payload k delay)).
Proof.
  induction k as [|k IH]; intros fuel attempt delay w Hlim Hle.
  - cbn [backoff Nat.add Z.of_nat].
    rewrite Z.add_0_r, Z.pow_0_r, Z.mul_1_r, Nat.add_0_r, app_nil_r.
    now rewrite world_eta.
  - destruct (Hlim 0%nat ltac:(lia)) as [r [Hs H429]].
    rewrite Nat.add_0_r in Hs.
    change (S k + fuel)%nat with (S (k + fuel)).
    rewrite (loop_step_429 _ _ _ _ r Hs H429) by lia.
    rewrite IH; cbn [fetched trace].
    + f_equal; [lia | | ].
      * rewrite Nat2Z.inj_succ, Z.pow_succ_r by lia; lia.
      * f_equal; [lia|].
        cbn [backoff]; now rewrite <- app_assoc.
    + intros i Hi; cbn [fetched].
      replace (S (fetched w) + i)%nat with (fetched w + S i)%nat by lia.
      apply Hlim; lia.
    + lia.
Qed.

(** After [k] rate-limited answers the helper stops at the first
    answer that is a success, or is not a 429, or comes when the
    retries are used up. *)
Lemma postJSON_settles (k : nat) (w : world) (r : response) :
  0 <= MAX_RETRIES cfg ->
  Z.of_nat k <= MAX_RETRIES cfg ->
  (forall i, (i < k)%nat -> rate_limited h cfg path payload (fetched w + i)) ->
  server h (fetched w + k) (API_BASE cfg ++ path) payload = Responded r ->
  ok r = true \/ status r <> 429 \/ Z.of_nat k = MAX_RETRIES cfg ->
  postJSON h cfg path payload w =
  (settle h r,
   mkWorld (S (fetched w + k))
     (trace w ++ backoff cfg path payload k (RETRY_BASE_DELAY_MS cfg)
              ++ [EvFetch (API_BASE cfg ++ path) payload])).
Proof.
  intros H0 Hk Hlim Hs Hstop; unfold postJSON.
  replace (S (Z.to_nat (MAX_RETRIES cfg)))
    with (k + S (Z.to_nat (MAX_RETRIES cfg) - k))%nat by lia.
  rewrite loop_retries by (auto; lia).
  erewrite loop_stop; cbn [fetched trace].
  - now rewrite <- app_assoc.
  - exact Hs.
  - destruct Hstop as [?|[?|?]]; auto; right; right; lia.
Qed.

Lemma postJSON_rejected (k : nat) (w : world) (e : jserror) :
  0 <= MAX_RETRIES cfg ->
  Z.of_nat k <= MAX_RETRIES cfg ->
  (forall i, (i < k)%nat -> rate_limited h cfg path payload (fetched w + i)) ->
  server h (fetched w + k) (API_BASE cfg ++ path) payload = Rejected e ->
  postJSON h cfg path payload w =
  (Throw e,
   mkWorld (S (fetched w + k))
     (trace w ++ backoff cfg path payload k (RETRY_BASE_DELAY_MS cfg)
              ++ [EvFetch (API_BASE cfg ++ path) payload])).
Proof.
  intros H0 Hk Hlim Hs; unfold postJSON.
  replace (S (Z.to_nat (MAX_RETRIES cfg)))
    with (k + S (Z.to_nat (MAX_RETRIES cfg) - k))%nat by lia.
  rewrite loop_retries by (auto; lia).
  erewrite loop_reject; cbn [fetched trace].
  - now rewrite <- app_assoc.
  - exact Hs.
Qed.

Lemma loop_appends fuel : forall attempt delay,
  appends (network_event cfg path payload)
    (postJSON_loop h cfg fuel path payload attempt delay).
Proof.
  induction fuel as [|fuel IH]; intros attempt delay.
  - apply appends_diverge.
  - cbn [postJSON_loop]; apply appends_bind.
    + intros w; exists [EvFetch (API_BASE cfg ++ path) payload]; unfold fetch.
      split;
        [now destruct (server h (fetched w) (API_BASE cfg ++ path) payload)|].
      constructor; [now left | constructor].
    + intros res; destruct (ok res).
      * destruct (JSON_parse h (body res));
          [apply appends_ret | apply appends_throw].
      * destruct ((status res =? 429) && (attempt <? MAX_RETRIES cfg)).
        -- apply appends_bind; [|intros _; apply IH].
           apply appends_emit; right; now eexists.
        -- apply appends_throw.
Qed.

Lemma postJSON_appends :
  appends (network_event cfg path payload) (postJSON h cfg path payload).
Proof. apply loop_appends. Qed.

(** The loop ends: the fuel given to it is never used up. *)
Lemma loop_returns fuel : forall attempt delay,
  0 <= attempt ->
  (Z.to_nat (MAX_RETRIES cfg - attempt) < fuel)%nat ->
  returns (postJSON_loop h cfg fuel path payload attempt delay).
Proof.
  induction fuel as [|fuel IH]; intros attempt delay H0 Hf; [lia|].
  cbn [postJSON_loop]; apply returns_bind.
  - intros w; unfold fetch.
    destruct (server h (fetched w) (API_BASE cfg ++ path) payload);
      simpl; discriminate.
  - intros res; destruct (ok res).
    + destruct (JSON_parse h (body res));
        [apply returns_ret | apply returns_throw].
    + destruct (attempt <? MAX_RETRIES cfg) eqn:Hlt;
        [|rewrite andb_false_r; apply returns_throw].
      destruct (status res =? 429); cbn [andb]; [|apply returns_throw].
      apply Z.ltb_lt in Hlt.
      apply returns_bind; [apply returns_emit|intros _].
      apply IH; lia.
Qed.

Lemma postJSON_returns : returns (postJSON h cfg path payload).
Proof. apply loop_returns; lia. Qed.

End HttpFacts.

(** ** The request builder and the listeners *)

Lemma appends_bind_ret {A B} Q (a : A) (k : A -> M B) :
  appends Q (k a) -> appends Q (bind (ret a) k).
Proof. intros H w; exact (H w). Qed.

Lemma lookup_filter (k : jsstring) (keys : list jsstring) st :
  existsb (jsstring_eqb k) keys = true ->
  lookup k (filter (fun kv => existsb (jsstring_eqb (fst kv)) keys) st)
  = lookup k st.
Proof.
  intros Hk; induction st as [|[k' v] st IH]; [reflexivity|].
  cbn [filter fst lookup].
  destruct (existsb (jsstring_eqb k') keys) eqn:E.
  - cbn [lookup]; now rewrite IH.
  - rewrite IH.
    destruct (jsstring_eqb k k') eqn:Ek; [|reflexivity].
    apply jsstring_eqb_eq in Ek; subst; congruence.
Qed.

(** The sentence count in the body of a request is the count of its
    payload, as JSON holds it. *)
Lemma body_request text tone m :
  body_maxSentences (request text tone m) = wire m.
Proof.
  unfold body_maxSentences, wire, request; cbn [JSON_value flat_map snd fst].
  destruct (JSON_value text), (JSON_value tone), (JSON_value m);
    reflexivity.
Qed.

Lemma sends_network cfg path text tone m e :
  network_event cfg path (request text tone m) e -> sends (wire m) e.
Proof. intros [->|[ms ->]]; [apply body_request | exact I]. Qed.

(** [summarize] sends the sentence count it is given, or 3 when it is
    given none. *)
Lemma summarize_sends h cfg text tone m :
  appends (sends (wire (default_to (VNum (Int 3)) m))) (summarize h cfg text tone m).
Proof.
  unfold summarize; apply appends_bind; [apply appends_lift|].
  intros [|]; [apply appends_throw|].
  eapply appends_weaken; [|apply postJSON_appends].
  intros e; apply sends_network.
Qed.

Lemma summarize_returns h cfg text tone m :
  returns (summarize h cfg text tone m).
Proof.
  unfold summarize; apply returns_bind; [apply returns_lift|].
  intros [|]; [apply returns_throw | apply postJSON_returns].
Qed.

Lemma executeScript_offline h m id fn :
  appends (sends m) (executeScript h id fn).
Proof.
  unfold executeScript; destruct (injectable h id);
    [now apply appends_emit | apply appends_throw].
Qed.

Lemma showBubbleInTab_sends h m id text :
  appends (sends m) (Part001.showBubbleInTab h id text).
Proof.
  apply appends_try_catch; [apply executeScript_offline|].
  intros _; unfold Part001.openFallback.
  destruct text; try apply appends_throw.
  destruct (encodeURIComponent _);
    [now apply appends_emit | apply appends_throw].
Qed.

Lemma stored_prefs h :
  get_prop (VObj (filter
     (fun kv => existsb (jsstring_eqb (fst kv)) [lit "tone"; lit "maxSentences"])
     (storage h))) (lit "maxSentences") = inr (stored_maxSentences h).
Proof.
  cbn [get_prop]; unfold stored_maxSentences.
  now rewrite lookup_filter.
Qed.

(** The body of [handleSummarizeInTab] after the loading bubble, and the
    [try] block of the other worker's listeners, up to the display of
    the result: both read the store, clamp, and call [summarize]. *)
Lemma handleSummarizeInTab_sends h id text :
  appends (sends (wire (VNum (clamp_maxSentences (stored_maxSentences h)))))
          (Background.handleSummarizeInTab h id text).
Proof.
  unfold Background.handleSummarizeInTab, Background.showBubble.
  apply appends_bind; [apply executeScript_offline|intros _].
  apply appends_try_catch; [|intros e; apply executeScript_offline].
  unfold storage_get; apply appends_bind_ret.
  cbn [get_prop lift]; apply appends_bind_ret; apply appends_bind_ret.
  rewrite !lookup_filter by reflexivity.
  apply appends_bind; [apply (summarize_sends h _ _ _ (VNum _))|].
  intros result; apply appends_bind; [apply appends_lift|].
  intros summary; apply executeScript_offline.
Qed.

Lemma summarizeAndShow_sends h id text :
  appends (sends (wire (VNum (clamp_maxSentences (stored_maxSentences h)))))
          (Part001.summarizeAndShow h id text).
Proof.
  unfold Part001.summarizeAndShow.
  unfold storage_get; apply appends_bind_ret.
  cbn [get_prop lift]; apply appends_bind_ret; apply appends_bind_ret.
  rewrite !lookup_filter by reflexivity.
  apply appends_bind; [apply (summarize_sends h _ _ _ (VNum _))|].
  intros result; apply appends_bind; [apply appends_lift|].
  intros summary; apply showBubbleInTab_sends.
Qed.

Lemma probeSelection_sends h m id : appends (sends m) (probeSelection h id).
Proof.
  unfold probeSelection; destruct (injectable h id);
    [apply appends_ret | apply appends_throw].
Qed.

Lemma Background_onClicked_sends h info tab :
  appends (sends (wire (VNum (clamp_maxSentences (stored_maxSentences h)))))
          (Background.onClicked h info tab).
Proof.
  unfold Background.onClicked.
  destruct (negb _); [apply appends_ret|].
  destruct (tab_id tab) as [id|]; [|apply appends_ret].
  destruct (negb _);
    [apply executeScript_offline | apply handleSummarizeInTab_sends].
Qed.

Lemma Background_onCommand_sends h command :
  appends (sends (wire (VNum (clamp_maxSentences (stored_maxSentences h)))))
          (Background.onCommand h command).
Proof.
  unfold Background.onCommand.
  destruct (negb _); [apply appends_ret|].
  destruct (tab_id _) as [id|]; [|apply appends_ret].
  apply appends_try_catch; [|intros e; apply executeScript_offline].
  apply appends_bind; [apply probeSelection_sends|intros sel].
  destruct (negb _);
    [apply executeScript_offline | apply handleSummarizeInTab_sends].
Qed.

Lemma Part001_onClicked_sends h info tab :
  appends (sends (wire (VNum (clamp_maxSentences (stored_maxSentences h)))))
          (Part001.onClicked h info tab).
Proof.
  unfold Part001.onClicked.
  destruct (negb _); [apply appends_ret|].
  destruct (tab_id tab) as [id|]; [|apply appends_ret].
  destruct (negb _); [apply showBubbleInTab_sends|].
  apply appends_try_catch; [apply summarizeAndShow_sends|].
  intros e; apply showBubbleInTab_sends.
Qed.

Lemma Part001_onCommand_sends h command :
  appends (sends (wire (VNum (clamp_maxSentences (stored_maxSentences h)))))
          (Part001.onCommand h command).
Proof.
  unfold Part001.onCommand.
  destruct (negb _); [apply appends_ret|].
  destruct (tab_id _) as [id|]; [|apply appends_ret].
  apply appends_bind.
  - apply appends_try_catch.
    + apply appends_bind; [apply probeSelection_sends|intros sel].
      destruct (negb _); [apply appends_ret|].
      apply appends_bind; [apply summarizeAndShow_sends|].
      intros _; apply appends_ret.
    + intros e; apply appends_bind; [apply showBubbleInTab_sends|].
      intros _; apply appends_ret.
  - intros [|]; [apply showBubbleInTab_sends | apply appends_ret].
Qed.

Lemma onMessage_sends h (msg : message) text tone m :
  msg_type msg = lit "SUMMARIZE_SELECTION" ->
  msg_payload msg = request text tone m ->
  appends (sends (wire (default_to (VNum (Int 3)) m))) (Background.onMessage h msg).
Proof.
  intros Ht Hp; unfold Background.onMessage.
  rewrite Ht, Hp; cbn [jsstring_eqb negb].
  change (negb (jsstring_eqb (lit "SUMMARIZE_SELECTION")
                             (lit "SUMMARIZE_SELECTION"))) with false.
  cbv iota.
  apply appends_try_catch; [|intros e; now apply appends_emit].
  change (or_else (request text tone m) (VObj [])) with (request text tone m).
  change (get_prop (request text tone m) (lit "text")) with (@inr jserror _ text).
  change (get_prop (request text tone m) (lit "tone")) with (@inr jserror _ tone).
  change (get_prop (request text tone m) (lit "maxSentences"))
    with (@inr jserror _ m).
  cbn [lift]; do 3 apply appends_bind_ret.
  apply appends_bind.
  - assert (E : default_to (VNum (Int 3)) (default_to (VNum (Int 3)) m)
                = default_to (VNum (Int 3)) m) by now destruct m.
    rewrite <- E at 1; apply summarize_sends.
  - intros data; now apply appends_emit.
Qed.

(** ** Runs of the listeners *)

Lemma network_of_network_event cfg path payload e :
  network_event cfg path payload e -> network e.
Proof. intros [->|[ms ->]]; exact I. Qed.

Lemma summarize_network h cfg text tone m :
  appends network (summarize h cfg text tone m).
Proof.
  unfold summarize; apply appends_bind; [apply appends_lift|].
  intros [|]; [apply appends_throw|].
  eapply appends_weaken; [|apply postJSON_appends].
  intros e; apply network_of_network_event.
Qed.

Lemma try_catch_bind_ret {A B} (a : A) (k : A -> M B) hd w :
  try_catch (bind (ret a) k) hd w = try_catch (k a) hd w.
Proof. reflexivity. Qed.

Lemma try_catch_bind {A B} (c : M A) (k : A -> M B) hd w :
  try_catch (bind c k) hd w =
  match c w with
  | (Ret a, w') => try_catch (k a) hd w'
  | (Throw e, w') => hd e w'
  | (Diverge, w') => (Diverge, w')
  end.
Proof.
  unfold try_catch, bind; now destruct (c w) as [[a|e|] w'].
Qed.

Lemma bind_bind_ret {A B} (a : A) (k : A -> M B) w :
  bind (ret a) k w = k a w.
Proof. reflexivity. Qed.

Lemma inject_ok h id fn w :
  injectable h id = true ->
  executeScript h id fn w =
  (Ret tt, mkWorld (fetched w) (trace w ++ [EvInject id fn])).
Proof. intros H; unfold executeScript; now rewrite H. Qed.

Lemma inject_refused h id fn w :
  injectable h id = false ->
  executeScript h id fn w = (Throw (refusal h id), w).
Proof. intros H; unfold executeScript; now rewrite H. Qed.

(** [handleSummarizeInTab] in a tab that accepts injection. *)
Lemma handleSummarizeInTab_run h id sel :
  injectable h id = true ->
  loading_then_settled id
    (request_outcome h Background.cfg sel
       [EvInject id (UpsertSummaryBubble (VStr loading_text) true)])
    (Background.handleSummarizeInTab h id (VStr sel) start).
Proof.
  intros Hinj.
  unfold Background.handleSummarizeInTab, Background.showBubble,
    request_outcome.
  unfold bind at 1; rewrite inject_ok by exact Hinj.
  unfold storage_get; rewrite try_catch_bind_ret.
  cbn [get_prop lift]; rewrite !try_catch_bind_ret, try_catch_bind.
  rewrite !lookup_filter by reflexivity.
  fold (stored_tone h); fold (stored_maxSentences h).
  cbn [fetched trace start app].
  match goal with
  | |- context [summarize h ?c ?t ?to ?m ?w] =>
      destruct (summarize_network h c t to m w) as [net [Et Fn]];
      pose proof (summarize_returns h c t to m w) as Hr;
      destruct (summarize h c t to m w) as [[result|e|] w2]
  end; cbn [fst snd trace app final_text] in *; [| |congruence].
  - rewrite try_catch_bind.
    destruct (get_prop result (lit "summary")) as [e|summary] eqn:Eg;
      cbn [lift throw ret]; [|unfold try_catch];
      rewrite inject_ok by exact Hinj;
      exists net; cbn [fst snd trace final_text]; rewrite Et, ?Eg;
      (split; [reflexivity|]; split; [reflexivity|];
       split; [exact Fn | discriminate]).
  - rewrite inject_ok by exact Hinj.
    exists net; cbn [fst snd trace]; rewrite Et.
    split; [reflexivity|]; split; [reflexivity|];
      split; [exact Fn | discriminate].
Qed.

Lemma try_catch_returned {A} (c : M A) hd w a :
  fst (c w) = Ret a -> try_catch c hd w = c w.
Proof.
  unfold try_catch; destruct (c w) as [[x|e|] w']; simpl;
    [reflexivity | discriminate | reflexivity].
Qed.

(** A selection that survives trimming is not blank. *)
Lemma blank_trimmed (s : jsstring) :
  trim s <> [] -> blank (VStr s) = inr false.
Proof.
  intros H; unfold blank.
  destruct s as [|c r]; [now elim H|].
  cbn [truthy]; destruct (trim (c :: r)); [now elim H|reflexivity].
Qed.

Lemma summarize_settles h cfg s tone m (k : nat) (w : world) r :
  trim s <> [] ->
  0 <= MAX_RETRIES cfg ->
  Z.of_nat k <= MAX_RETRIES cfg ->
  let payload := request (VStr s) (default_to (VStr (lit "precise")) tone)
                         (default_to (VNum (Int 3)) m) in
  (forall i, (i < k)%nat ->
     rate_limited h cfg (lit "/summarize") payload (fetched w + i)) ->
  server h (fetched w + k) (API_BASE cfg ++ lit "/summarize") payload
    = Responded r ->
  ok r = true \/ status r <> 429 \/ Z.of_nat k = MAX_RETRIES cfg ->
  summarize h cfg (VStr s) tone m w =
  (settle h r,
   mkWorld (S (fetched w + k))
     (trace w ++ backoff cfg (lit "/summarize") payload k
                   (RETRY_BASE_DELAY_MS cfg)
              ++ [EvFetch (API_BASE cfg ++ lit "/summarize") payload])).
Proof.
  intros Hs H0 Hk payload Hlim Hr Hstop.
  unfold summarize; rewrite (blank_trimmed s Hs).
  cbn [lift]; rewrite bind_bind_ret.
  now apply postJSON_settles.
Qed.

Lemma default_tone a :
  default_to (VStr (lit "precise")) (or_else a (VStr (lit "precise")))
  = or_else a (VStr (lit "precise")).
Proof.
  unfold or_else; destruct (truthy a) eqn:E; [|reflexivity]; now destruct a.
Qed.

(** The menu listener, triggered with a selection, is
    [handleSummarizeInTab] (resp. the guarded [summarizeAndShow]). *)
Lemma Background_onClicked_trigger h info tab id sel :
  menu_trigger info tab id sel -> sel <> [] ->
  Background.onClicked h info tab
  = Background.handleSummarizeInTab h id (VStr sel).
Proof.
  intros [Hm [Ht Hs]] Hne; unfold Background.onClicked.
  rewrite Hm, Ht, Hs, jsstring_eqb_refl.
  now destruct sel.
Qed.

Lemma Part001_onClicked_trigger h info tab id sel :
  menu_trigger info tab id sel -> sel <> [] ->
  Part001.onClicked h info tab
  = try_catch (Part001.summarizeAndShow h id sel) (Part001.showError h id).
Proof.
  intros [Hm [Ht Hs]] Hne; unfold Part001.onClicked.
  rewrite Hm, Ht, Hs, jsstring_eqb_refl.
  now destruct sel.
Qed.

Lemma probe_ok h id w :
  injectable h id = true ->
  probeSelection h id w = (Ret (selection_probe (selection h id)), w).
Proof. intros H; unfold probeSelection; now rewrite H. Qed.

Lemma Background_onCommand_trigger h id sel w :
  shortcut_trigger h id sel -> sel <> [] ->
  Background.onCommand h menu_id w
  = try_catch (Background.handleSummarizeInTab h id (VStr sel))
      (fun err => Background.showBubble h id
                    (VStr (lit "Error: " ++ String_of_error err)) false) w.
Proof.
  intros [Ht [Hi Hs]] Hne; unfold Background.onCommand.
  rewrite jsstring_eqb_refl, Ht; cbn [negb].
  rewrite try_catch_bind, probe_ok by exact Hi.
  rewrite Hs; now destruct sel.
Qed.

Lemma Part001_onCommand_trigger h id sel w :
  shortcut_trigger h id sel -> sel <> [] ->
  Part001.onCommand h menu_id w
  = match try_catch (Part001.summarizeAndShow h id sel)
                    (Part001.showError h id) w with
    | (Ret _, w') => (Ret tt, w')
    | (Throw e, w') => (Throw e, w')
    | (Diverge, w') => (Diverge, w')
    end.
Proof.
  intros [Ht [Hi Hs]] Hne; unfold Part001.onCommand.
  rewrite jsstring_eqb_refl, Ht; cbn [negb].
  unfold bind at 1; rewrite try_catch_bind, probe_ok by exact Hi.
  rewrite Hs.
  replace (negb (truthy (VStr sel))) with false by now destruct sel.
  unfold try_catch, bind.
  destruct (Part001.summarizeAndShow h id sel w) as [[[]|e|] w1];
    [reflexivity| |reflexivity].
  destruct (Part001.showError h id e w1) as [[[]|e'|] w2]; reflexivity.
Qed.

Lemma settle_returns h r : settle h r <> Diverge.
Proof.
  unfold settle; destruct (ok r); [|discriminate].
  destruct (JSON_parse h (body r)); discriminate.
Qed.

Lemma summarize_effective h cfg sel (k : nat) r w :
  cfg = Background.cfg \/ cfg = Part001.cfg ->
  fetched w = 0%nat ->
  trim sel <> [] ->
  answers h cfg sel k r ->
  ok r = true \/ status r <> 429 \/ k = 3%nat ->
  summarize h cfg (VStr sel)
    (or_else (stored_tone h) (VStr (lit "precise")))
    (VNum (clamp_maxSentences (stored_maxSentences h))) w =
  (settle h r,
   mkWorld (S k)
     (trace w ++ backoff cfg (lit "/summarize") (effective_request h sel) k
                   (RETRY_BASE_DELAY_MS cfg)
              ++ [EvFetch (API_BASE cfg ++ lit "/summarize")
                          (effective_request h sel)])).
Proof.
  intros Hcfg Hw Hs [Hk [Hlim Hr]] Hstop.
  assert (HM : MAX_RETRIES cfg = 3) by (destruct Hcfg; subst; reflexivity).
  pose proof (summarize_settles h cfg sel
                (or_else (stored_tone h) (VStr (lit "precise")))
                (VNum (clamp_maxSentences (stored_maxSentences h)))
                k w r Hs) as H.
  cbn [default_to] in H; rewrite default_tone, Hw in H.
  apply H; [lia | lia | exact Hlim | exact Hr | ].
  destruct Hstop as [?|[?|?]]; auto; right; right; lia.
Qed.

(** A run of [handleSummarizeInTab] against a service that answers. *)
Lemma handleSummarizeInTab_settled h id sel (k : nat) r :
  injectable h id = true ->
  trim sel <> [] ->
  answers h Background.cfg sel k r ->
  ok r = true \/ status r <> 429 \/ k = 3%nat ->
  Background.handleSummarizeInTab h id (VStr sel) start =
  (Ret tt,
   mkWorld (S k)
     ([EvInject id (UpsertSummaryBubble (VStr loading_text) true)]
      ++ backoff Background.cfg (lit "/summarize") (effective_request h sel)
           k 600
      ++ [EvFetch (API_BASE Background.cfg ++ lit "/summarize")
                  (effective_request h sel);
          EvInject id (UpsertSummaryBubble (final_text (settle h r)) false)])).
Proof.
  intros Hinj Hs Ha Hstop.
  unfold Background.handleSummarizeInTab, Background.showBubble.
  unfold bind at 1; rewrite inject_ok by exact Hinj.
  unfold storage_get; rewrite try_catch_bind_ret.
  cbn [get_prop lift]; rewrite !try_catch_bind_ret, try_catch_bind.
  rewrite !lookup_filter by reflexivity.
  fold (stored_tone h); fold (stored_maxSentences h).
  rewrite (summarize_effective h Background.cfg sel k r)
    by (auto; reflexivity).
  pose proof (settle_returns h r) as Hd.
  cbn [fetched trace start app RETRY_BASE_DELAY_MS Background.cfg].
  destruct (settle h r) as [result|e|]; [| |congruence]; cbn [final_text].
  - rewrite try_catch_bind.
    destruct (get_prop result (lit "summary")) as [e|summary];
      cbn [lift throw ret]; [|unfold try_catch];
      rewrite inject_ok by exact Hinj; cbn [fetched trace app];
      now rewrite <- app_assoc.
  - rewrite inject_ok by exact Hinj; cbn [fetched trace app].
    now rewrite <- app_assoc.
Qed.

Lemma guarded_summarizeAndShow_settled h id sel (k : nat) r :
  injectable h id = true ->
  trim sel <> [] ->
  answers h Part001.cfg sel k r ->
  ok r = true \/ status r <> 429 \/ k = 3%nat ->
  try_catch (Part001.summarizeAndShow h id sel) (Part001.showError h id) start
  = (Ret tt,
     mkWorld (S k)
       (backoff Part001.cfg (lit "/summarize") (effective_request h sel) k 500
        ++ [EvFetch (API_BASE Part001.cfg ++ lit "/summarize")
                    (effective_request h sel);
            EvInject id (InPageRenderBubble (final_text (settle h r)))])).
Proof.
  intros Hinj Hs Ha Hstop.
  unfold Part001.summarizeAndShow, Part001.showError, Part001.showBubbleInTab.
  unfold storage_get; rewrite try_catch_bind_ret.
  cbn [get_prop lift]; rewrite !try_catch_bind_ret, try_catch_bind.
  rewrite !lookup_filter by reflexivity.
  fold (stored_tone h); fold (stored_maxSentences h).
  rewrite (summarize_effective h Part001.cfg sel k r)
    by (auto; reflexivity).
  pose proof (settle_returns h r) as Hd.
  cbn [fetched trace start app RETRY_BASE_DELAY_MS Part001.cfg].
  destruct (settle h r) as [result|e|]; [| |congruence]; cbn [final_text].
  - rewrite try_catch_bind.
    destruct (get_prop result (lit "summary")) as [e|summary];
      cbn [lift throw ret]; unfold try_catch;
      rewrite inject_ok by exact Hinj; cbn [fetched trace app];
      now rewrite <- app_assoc.
  - unfold try_catch; rewrite inject_ok by exact Hinj; cbn [fetched trace app].
    now rewrite <- app_assoc.
Qed.

Lemma shown_app a b : shown (a ++ b) = shown a ++ shown b.
Proof.
  induction a as [|e a IH]; [reflexivity|].
  destruct e as [| |tab [text l|text]| |]; cbn [app shown]; now rewrite ?IH.
Qed.

Lemma shown_backoff cfg path payload k : forall d,
  shown (backoff cfg path payload k d) = [].
Proof. induction k as [|k IH]; intros d; cbn [backoff shown]; auto. Qed.

Lemma menu_trigger_trimmed info tab id sel :
  menu_trigger info tab id sel -> trim sel = sel.
Proof.
  intros [_ [_ <-]]; unfold menu_selection; apply trim_idempotent.
Qed.

Lemma shortcut_trigger_trimmed h id sel :
  shortcut_trigger h id sel -> trim sel = sel.
Proof.
  intros [_ [_ <-]]; unfold selection_probe; apply trim_idempotent.
Qed.

(** The four listeners, triggered with a selection in a tab that
    accepts injection, against a service that answers. *)
Lemma Background_onClicked_settled h info tab id sel (k : nat) r :
  injectable h id = true -> sel <> [] ->
  menu_trigger info tab id sel ->
  answers h Background.cfg sel k r ->
  ok r = true \/ status r <> 429 \/ k = 3%nat ->
  fst (Background.onClicked h info tab start) = Ret tt /\
  shown (trace (snd (Background.onClicked h info tab start)))
  = [VStr loading_text; final_text (settle h r)].
Proof.
  intros Hinj Hne Ht Ha Hstop.
  rewrite (Background_onClicked_trigger h info tab id sel Ht Hne).
  rewrite (handleSummarizeInTab_settled h id sel k r); auto.
  - split; [reflexivity|]; cbn [snd trace].
    rewrite !shown_app, shown_backoff; reflexivity.
  - rewrite (menu_trigger_trimmed _ _ _ _ Ht); exact Hne.
Qed.

Lemma Background_onCommand_settled h id sel (k : nat) r :
  sel <> [] ->
  shortcut_trigger h id sel ->
  answers h Background.cfg sel k r ->
  ok r = true \/ status r <> 429 \/ k = 3%nat ->
  fst (Background.onCommand h menu_id start) = Ret tt /\
  shown (trace (snd (Background.onCommand h menu_id start)))
  = [VStr loading_text; final_text (settle h r)].
Proof.
  intros Hne Ht Ha Hstop.
  assert (Hinj : injectable h id = true) by apply Ht.
  rewrite (Background_onCommand_trigger h id sel start Ht Hne).
  assert (Hs : trim sel <> [])
    by (rewrite (shortcut_trigger_trimmed _ _ _ Ht); exact Hne).
  pose proof (handleSummarizeInTab_settled h id sel k r Hinj Hs Ha Hstop) as E.
  rewrite (try_catch_returned _ _ _ tt) by now rewrite E.
  rewrite E; split; [reflexivity|]; cbn [snd trace].
  rewrite !shown_app, shown_backoff; reflexivity.
Qed.

Lemma Part001_onClicked_settled h info tab id sel (k : nat) r :
  injectable h id = true -> sel <> [] ->
  menu_trigger info tab id sel ->
  answers h Part001.cfg sel k r ->
  ok r = true \/ status r <> 429 \/ k = 3%nat ->
  fst (Part001.onClicked h info tab start) = Ret tt /\
  shown (trace (snd (Part001.onClicked h info tab start)))
  = [final_text (settle h r)].
Proof.
  intros Hinj Hne Ht Ha Hstop.
  rewrite (Part001_onClicked_trigger h info tab id sel Ht Hne).
  rewrite (guarded_summarizeAndShow_settled h id sel k r); auto.
  - split; [reflexivity|]; cbn [snd trace].
    rewrite !shown_app, shown_backoff; reflexivity.
  - rewrite (menu_trigger_trimmed _ _ _ _ Ht); exact Hne.
Qed.

Lemma Part001_onCommand_settled h id sel (k : nat) r :
  sel <> [] ->
  shortcut_trigger h id sel ->
  answers h Part001.cfg sel k r ->
  ok r = true \/ status r <> 429 \/ k = 3%nat ->
  fst (Part001.onCommand h menu_id start) = Ret tt /\
  shown (trace (snd (Part001.onCommand h menu_id start)))
  = [final_text (settle h r)].
Proof.
  intros Hne Ht Ha Hstop.
  assert (Hinj : injectable h id = true) by apply Ht.
  rewrite (Part001_onCommand_trigger h id sel start Ht Hne).
  assert (Hs : trim sel <> [])
    by (rewrite (shortcut_trigger_trimmed _ _ _ Ht); exact Hne).
  rewrite (guarded_summarizeAndShow_settled h id sel k r Hinj Hs Ha Hstop).
  split; [reflexivity|]; cbn [snd trace].
  rewrite !shown_app, shown_backoff; reflexivity.
Qed.

(** ** The popup's error texts *)

Lemma http_error_string st b :
  String_of_error (HttpError st b) =
  lit "Error: HTTP " ++ decimal st ++ lit ": " ++
  ToString (or_else (VStr b) (VStr (lit "Request failed"))).
Proof. reflexivity. Qed.

Lemma friendly_429 b :
  Popup.friendly (String_of_error (HttpError 429 b))
  = lit "Rate limited. Try again shortly.".
Proof.
  rewrite http_error_string; unfold Popup.friendly.
  change (decimal 429) with (lit "429").
  now rewrite includes_occurrence.
Qed.

Lemma friendly_402 b :
  includes b (lit "429") = false ->
  Popup.friendly (String_of_error (HttpError 402 b))
  = lit "Billing/credits issue.".
Proof.
  intros H; rewrite http_error_string; destruct b as [|c b];
    [reflexivity|].
  change (lit "Error: HTTP " ++ decimal 402 ++ lit ": " ++
          ToString (or_else (VStr (c :: b)) (VStr (lit "Request failed"))))
    with (lit "Error: HTTP " ++ lit "402" ++ (lit ": " ++ c :: b)).
  unfold Popup.friendly.
  rewrite (includes_occurrence (lit "Error: HTTP ") (lit "402")).
  change (lit "Error: HTTP " ++ lit "402" ++ lit ": " ++ c :: b)
    with (lit "Error: HTTP 402: " ++ c :: b).
  now rewrite (includes_clear (lit "429") (lit "Error: HTTP 402: ")), H.
Qed.

Lemma friendly_502 b :
  includes b (lit "429") = false ->
  includes b (lit "402") = false ->
  includes (toLowerCase b) (lit "quota") = false ->
  Popup.friendly (String_of_error (HttpError 502 b))
  = lit "Model is busy. Try again.".
Proof.
  intros H1 H2 H3; rewrite http_error_string; destruct b as [|c b];
    [reflexivity|].
  change (lit "Error: HTTP " ++ decimal 502 ++ lit ": " ++
          ToString (or_else (VStr (c :: b)) (VStr (lit "Request failed"))))
    with (lit "Error: HTTP 502: " ++ c :: b).
  unfold Popup.friendly.
  rewrite (includes_clear (lit "429") (lit "Error: HTTP 502: ")), H1
    by reflexivity.
  rewrite (includes_clear (lit "402") (lit "Error: HTTP 502: ")), H2
    by reflexivity.
  rewrite toLowerCase_app.
  rewrite (includes_clear (lit "quota")
             (toLowerCase (lit "Error: HTTP 502: "))), H3 by reflexivity.
  cbn [orb].
  change (lit "Error: HTTP 502: " ++ c :: b)
    with (lit "Error: HTTP " ++ lit "502" ++ (lit ": " ++ c :: b)).
  now rewrite includes_occurrence.
Qed.

Lemma friendly_unmarked msg :
  Popup.unmarked msg -> Popup.friendly msg = lit "Something went wrong.".
Proof.
  intros [H1 [H2 [H3 H4]]]; unfold Popup.friendly.
  now rewrite H1, H2, H3, H4.
Qed.

(** ** The fallback document *)

Lemma flat_map_flat_map {A B C} (f : A -> list B) (g : B -> list C) l :
  flat_map g (flat_map f l) = flat_map (fun x => flat_map g (f x)) l.
Proof.
  induction l as [|x l IH]; [reflexivity|].
  cbn [flat_map]; now rewrite flat_map_app, IH.
Qed.

(** The three passes over the text come to one pass that rewrites each
    of the three characters once. *)
Lemma escape_html_units (text : jsstring) :
  Part001.escape_html text = flat_map Part001.escape_unit text.
Proof.
  unfold Part001.escape_html, replace_all.
  rewrite !flat_map_flat_map; apply flat_map_ext; intros c.
  unfold Part001.escape_unit.
  destruct (c =? 38)%N eqn:E1; [reflexivity|].
  cbn [flat_map app]; rewrite app_nil_r.
  destruct (c =? 60)%N eqn:E2; [reflexivity|].
  cbn [flat_map app]; rewrite app_nil_r.
  now destruct (c =? 62)%N.
Qed.

Lemma escape_unit_no_angle c x :
  In x (Part001.escape_unit c) -> x <> 60%N /\ x <> 62%N.
Proof.
  unfold Part001.escape_unit.
  destruct (c =? 38)%N eqn:E1; [|destruct (c =? 60)%N eqn:E2;
    [|destruct (c =? 62)%N eqn:E3]].
  1-3: cbn; intros H; repeat destruct H as [<-|H]; try (split; discriminate);
       now elim H.
  intros [<-|[]]; apply N.eqb_neq in E2, E3; now split.
Qed.

Lemma escape_html_no_angle (text : jsstring) :
  ~ In 60%N (Part001.escape_html text) /\
  ~ In 62%N (Part001.escape_html text).
Proof.
  rewrite escape_html_units; split; intros H;
    apply in_flat_map in H as [c [_ H]];
    apply escape_unit_no_angle in H; now destruct H.
Qed.

Lemma code_points_plain_app (a b : jsstring) :
  forallb plain a = true ->
  code_points (a ++ b) = option_map (app a) (code_points b).
Proof.
  induction a as [|c a IH]; cbn [forallb app].
  - intros _; now destruct (code_points b).
  - intros H; apply andb_true_iff in H as [Hc Ha].
    unfold plain in Hc; apply andb_true_iff in Hc as [Hl Hh].
    apply negb_true_iff in Hl, Hh.
    cbn [code_points]; rewrite Hl, Hh, (IH Ha).
    now destruct (code_points b).
Qed.

Lemma escape_unit_plain c :
  plain c = true -> forallb plain (Part001.escape_unit c) = true.
Proof.
  intros H; unfold Part001.escape_unit.
  destruct (c =? 38)%N; [reflexivity|].
  destruct (c =? 60)%N; [reflexivity|].
  destruct (c =? 62)%N; [reflexivity|].
  cbn [forallb]; now rewrite H.
Qed.

Lemma escape_unit_surrogate c :
  plain c = false -> Part001.escape_unit c = [c].
Proof.
  unfold plain, is_low_surrogate, is_high_surrogate, Part001.escape_unit.
  intros H.
  assert (L : (55296 <= c)%N).
  { apply andb_false_iff in H as [H|H]; apply negb_false_iff in H;
      apply andb_true_iff in H as [H _]; apply N.leb_le in H; lia. }
  destruct (N.eqb_spec c 38); [lia|].
  destruct (N.eqb_spec c 60); [lia|].
  destruct (N.eqb_spec c 62); [lia|reflexivity].
Qed.

(** Escaping keeps a well-formed text well-formed, whatever well-formed
    text follows it. *)
Lemma escape_well_formed (n : nat) : forall (text tail : jsstring),
  (List.length text <= n)%nat ->
  well_formed text -> well_formed tail ->
  well_formed (flat_map Part001.escape_unit text ++ tail).
Proof.
  unfold well_formed.
  induction n as [|n IH]; intros [|c r] tail Hn Ht Hl;
    cbn [List.length] in Hn; try lia; try exact Hl.
  - cbn [flat_map]; cbn [code_points] in Ht.
    destruct (is_low_surrogate c) eqn:Elow; [now elim Ht|].
    destruct (is_high_surrogate c) eqn:Ehigh.
    + destruct r as [|d r']; [now elim Ht|].
      destruct (is_low_surrogate d) eqn:Dlow; [|now elim Ht].
      rewrite (escape_unit_surrogate c)
        by (unfold plain; rewrite Ehigh; apply andb_false_r).
      cbn [flat_map].
      rewrite (escape_unit_surrogate d) by (unfold plain; now rewrite Dlow).
      cbn [app code_points]; rewrite Elow, Ehigh, Dlow.
      assert (G : code_points (flat_map Part001.escape_unit r' ++ tail)
                  <> None).
      { apply IH; [cbn [List.length] in Hn; lia| |exact Hl].
        now destruct (code_points r'). }
      now destruct (code_points (flat_map Part001.escape_unit r' ++ tail)).
    + rewrite <- app_assoc, code_points_plain_app
        by (apply escape_unit_plain; unfold plain; now rewrite Elow, Ehigh).
      assert (G : code_points (flat_map Part001.escape_unit r ++ tail)
                  <> None).
      { apply IH; [lia| |exact Hl]. now destruct (code_points r). }
      now destruct (code_points (flat_map Part001.escape_unit r ++ tail)).
Qed.

(** The fallback document of a well-formed text can be put into a
    [data:] URL. *)
Lemma fallback_html_encodes (text : jsstring) :
  well_formed text ->
  exists enc, encodeURIComponent (Part001.fallback_html text) = Some enc.
Proof.
  intros H; unfold encodeURIComponent, Part001.fallback_html.
  rewrite code_points_plain_app by reflexivity.
  rewrite escape_html_units.
  assert (G : well_formed (flat_map Part001.escape_unit text
                             ++ Part001.html_tail)).
  { apply (escape_well_formed (List.length text)); auto.
    unfold well_formed; vm_compute; discriminate. }
  unfold well_formed in G.
  destruct (code_points (flat_map Part001.escape_unit text
                           ++ Part001.html_tail)); [|now elim G].
  now eexists.
Qed.

(** ** The page *)

Lemma node_forall_ind (P : Dom.node -> Prop) :
  (forall s, P (Dom.Text s)) ->
  (forall i st kids, Forall P kids -> P (Dom.Element i st kids)) ->
  forall n, P n.
Proof.
  intros HT HE; fix IH 1; intros [s|i st kids]; [apply HT|].
  apply HE; induction kids as [|k kids IHk]; constructor; [apply IH|exact IHk].
Qed.

Lemma find_first_none {A} (f : A -> option Dom.path) l : forall k,
  Forall (fun x => f x = None) l -> Dom.find_first f l k = None.
Proof.
  induction l as [|x l IH]; intros k H; [reflexivity|].
  inversion H as [|? ? Hx Hl]; subst; cbn [Dom.find_first].
  rewrite Hx; now apply IH.
Qed.

Lemma find_first_last {A} (f : A -> option Dom.path) l x : forall k,
  Forall (fun y => f y = None) l ->
  Dom.find_first f (l ++ [x]) k
  = option_map (cons (k + List.length l)%nat) (f x).
Proof.
  induction l as [|y l IH]; intros k H.
  - cbn [app Dom.find_first List.length]; rewrite Nat.add_0_r.
    now destruct (f x).
  - inversion H as [|? ? Hy Hl]; subst.
    cbn [app Dom.find_first List.length]; rewrite Hy, (IH (S k) Hl).
    now replace (S k + List.length l)%nat with (k + S (List.length l))%nat
      by lia.
Qed.

Lemma list_sum_zero l : list_sum l = 0%nat -> Forall (fun n => n = 0%nat) l.
Proof.
  induction l as [|n l IH]; simpl; intros H; [constructor|].
  constructor; [lia | apply IH; lia].
Qed.

(** An id no element carries is not found. *)
Lemma find_node_absent i : forall n,
  Dom.count_id i n = 0%nat -> Dom.find_node i n = None.
Proof.
  induction n as [s|j st kids IH] using node_forall_ind; intros H;
    [reflexivity|].
  cbn [Dom.count_id Dom.find_node] in *.
  destruct (jsstring_eqb i j); [lia|].
  apply find_first_none.
  assert (Z0 : list_sum (map (Dom.count_id i) kids) = 0%nat) by lia.
  apply list_sum_zero in Z0; rewrite Forall_map in Z0.
  rewrite Forall_forall in *; intros k Hk; apply (IH k Hk), (Z0 k Hk).
Qed.

Lemma document_absent i doc :
  Dom.count_elements i doc = 0%nat ->
  Forall (fun n => Dom.find_node i n = None) doc.
Proof.
  unfold Dom.count_elements; intros H.
  apply list_sum_zero in H; rewrite Forall_map in H.
  eapply Forall_impl; [|exact H].
  intros n; apply find_node_absent.
Qed.

Lemma update_nth_last {A} (f : A -> A) l x :
  Dom.update_nth (List.length l) f (l ++ [x]) = l ++ [f x].
Proof.
  induction l as [|y l IH]; [reflexivity|].
  cbn [List.length app Dom.update_nth]; now rewrite IH.
Qed.

Lemma count_elements_last i doc n :
  Dom.count_elements i (doc ++ [n])
  = (Dom.count_elements i doc + Dom.count_id i n)%nat.
Proof.
  unfold Dom.count_elements.
  rewrite map_app, list_sum_app; simpl; lia.
Qed.

Lemma count_bubble w text loading :
  Dom.count_id Dom.bubble_id (Dom.bubble_showing w text loading) = 1%nat.
Proof. now destruct text. Qed.

(** One call on a page that holds the bubble last and nothing else
    under its two ids: the bubble is rewritten where it stands. *)
Lemma upsert_existing w w0 t0 l0 text loading doc :
  Dom.count_elements Dom.bubble_id doc = 0%nat ->
  Dom.count_elements Dom.bubble_body_id doc = 0%nat ->
  Dom.upsertSummaryBubble w text loading
    (doc ++ [Dom.bubble_showing w0 t0 l0])
  = doc ++ [Dom.bubble_showing w0 text loading].
Proof.
  intros H1 H2; unfold Dom.upsertSummaryBubble, Dom.getElementById.
  rewrite (find_first_last (Dom.find_node Dom.bubble_id))
    by now apply document_absent.
  replace (Dom.find_node Dom.bubble_id (Dom.bubble_showing w0 t0 l0))
    with (Some (@nil nat)) by reflexivity.
  cbn [option_map Nat.add].
  rewrite (find_first_last (Dom.find_node Dom.bubble_body_id))
    by now apply document_absent.
  replace (Dom.find_node Dom.bubble_body_id (Dom.bubble_showing w0 t0 l0))
    with (Some [1%nat]) by reflexivity.
  cbn [option_map Nat.add Dom.is_prefix Dom.update_at].
  rewrite Nat.eqb_refl; cbn [andb].
  now rewrite !update_nth_last.
Qed.

(** One call on a page without the two ids: the bubble is appended. *)
Lemma upsert_fresh w text loading doc :
  Dom.count_elements Dom.bubble_id doc = 0%nat ->
  Dom.count_elements Dom.bubble_body_id doc = 0%nat ->
  Dom.upsertSummaryBubble w text loading doc
  = doc ++ [Dom.bubble_showing w text loading].
Proof.
  intros H1 H2; unfold Dom.upsertSummaryBubble, Dom.getElementById.
  rewrite (find_first_none (Dom.find_node Dom.bubble_id) doc)
    by now apply document_absent.
  cbv iota.
  rewrite (find_first_last (Dom.find_node Dom.bubble_body_id))
    by now apply document_absent.
  replace (Dom.find_node Dom.bubble_body_id (Dom.new_bubble w))
    with (Some [1%nat]) by reflexivity.
  cbn [option_map Nat.add Dom.is_prefix Dom.update_at].
  rewrite Nat.eqb_refl; cbn [andb].
  now rewrite !update_nth_last.
Qed.

(** ** The page under a trace *)

Lemma pages_network win id doc : forall net n rest,
  Forall network net ->
  pages win id n (net ++ rest) doc = pages win id n rest doc.
Proof.
  induction net as [|e net IH]; intros n rest H; [reflexivity|].
  inversion H as [|? ? He Hn]; subst.
  destruct e; try now elim He.
  - cbn [app pages]; now apply IH.
  - cbn [app pages]; now apply IH.
Qed.

(** The bubble of [handleSummarizeInTab] on a page without the two
    ids: one bubble, showing the loading text and then the final one. *)
Lemma pages_loading_then_final win id doc net final :
  Dom.count_elements Dom.bubble_id doc = 0%nat ->
  Dom.count_elements Dom.bubble_body_id doc = 0%nat ->
  Forall network net ->
  pages win id 0
    ([EvInject id (UpsertSummaryBubble (VStr loading_text) true)]
       ++ net ++ [EvInject id (UpsertSummaryBubble final false)]) doc
  = [doc ++ [Dom.bubble_showing (win 0%nat) loading_text true];
     doc ++ [Dom.bubble_showing (win 0%nat) (text_of final) false]].
Proof.
  intros H1 H2 Hn.
  cbn [app pages]; rewrite Z.eqb_refl; cbv zeta.
  rewrite pages_network by exact Hn.
  cbn [pages]; rewrite Z.eqb_refl; cbv zeta.
  cbn [run_injected text_of ToString].
  rewrite (upsert_fresh (win 0%nat) loading_text true doc H1 H2).
  now rewrite (upsert_existing (win 1%nat) (win 0%nat) loading_text true
                 (text_of final) false doc H1 H2).
Qed.

Lemma network_backoff cfg path payload k : forall d,
  Forall network (backoff cfg path payload k d).
Proof.
  induction k as [|k IH]; intros d; cbn [backoff]; repeat constructor.
  apply IH.
Qed.

(** One write to the bubble. *)
Lemma bubble_goes_once id text loading (o : outcome unit) n :
  bubble_goes id [(text_of text, loading)]
    (o, mkWorld n [EvInject id (UpsertSummaryBubble text loading)]).
Proof.
  intros win doc H1 H2; cbn [snd trace pages map fst].
  rewrite Z.eqb_refl; cbv zeta; cbn [run_injected pages].
  now rewrite (upsert_fresh (win 0%nat) (text_of text) loading doc H1 H2).
Qed.

(** The loading bubble, requests and waits, the final bubble. *)
Lemma bubble_goes_chain id o r :
  loading_then_settled id o r ->
  bubble_goes id [(loading_text, true); (text_of (final_text o), false)] r.
Proof.
  intros [net [_ [Et [Fn _]]]] win doc H1 H2; rewrite Et.
  now apply pages_loading_then_final.
Qed.

(** Requests and waits, then one overlay. *)
Lemma overlay_added_after id text (o : outcome unit) n net :
  Forall network net ->
  overlay_added id (text_of text)
    (o, mkWorld n (net ++ [EvInject id (InPageRenderBubble text)])).
Proof.
  intros Fn win doc; cbn [snd trace].
  rewrite pages_network by exact Fn.
  cbn [pages]; rewrite Z.eqb_refl; reflexivity.
Qed.

Lemma overlays_last doc n :
  overlays (doc ++ [n])
  = overlays doc ++ match Dom.overlay_text n with
                    | Some s => [s]
                    | None => []
                    end.
Proof. unfold overlays; rewrite flat_map_app; cbn; now rewrite app_nil_r. Qed.

Lemma overlay_text_bubble w text loading :
  Dom.overlay_text (Dom.bubble_showing w text loading) = Some text.
Proof. now destruct text. Qed.

(** The request of a triggered listener settles as the answer the
    service stops at settles. *)
Lemma request_outcome_settles h cfg sel (k : nat) r before :
  cfg = Background.cfg \/ cfg = Part001.cfg ->
  trim sel <> [] ->
  answers h cfg sel k r ->
  ok r = true \/ status r <> 429 \/ k = 3%nat ->
  request_outcome h cfg sel before = settle h r.
Proof.
  intros Hcfg Hs Ha Hstop; unfold request_outcome.
  now rewrite (summarize_effective h cfg sel k r (mkWorld 0 before)).
Qed.

(** It fails as the fetch fails when the service cannot be reached. *)
Lemma request_outcome_rejected h cfg sel (k : nat) e before :
  cfg = Background.cfg \/ cfg = Part001.cfg ->
  trim sel <> [] ->
  (k <= 3)%nat ->
  (forall i, (i < k)%nat ->
     rate_limited h cfg (lit "/summarize") (effective_request h sel) i) ->
  server h k (API_BASE cfg ++ lit "/summarize") (effective_request h sel)
    = Rejected e ->
  request_outcome h cfg sel before = Throw e.
Proof.
  intros Hcfg Hs Hk Hlim Hr; unfold request_outcome, summarize.
  assert (HM : MAX_RETRIES cfg = 3) by (destruct Hcfg; subst; reflexivity).
  rewrite (blank_trimmed sel Hs); cbn [lift]; rewrite bind_bind_ret.
  cbn [default_to]; rewrite default_tone.
  fold (effective_request h sel).
  now rewrite (postJSON_rejected h cfg (lit "/summarize")
                 (effective_request h sel) k (mkWorld 0 before) e)
    by (cbn [fetched]; auto; lia).
Qed.

(** The listeners of background.js, triggered with a selection in a tab
    that accepts injection. *)
Lemma Background_onClicked_chain h info tab id sel :
  injectable h id = true -> sel <> [] ->
  menu_trigger info tab id sel ->
  loading_then_settled id
    (request_outcome h Background.cfg sel
       [EvInject id (UpsertSummaryBubble (VStr loading_text) true)])
    (Background.onClicked h info tab start).
Proof.
  intros Hinj Hne Ht.
  rewrite (Background_onClicked_trigger h info tab id sel Ht Hne).
  now apply handleSummarizeInTab_run.
Qed.

Lemma Background_onCommand_chain h id sel :
  sel <> [] ->
  shortcut_trigger h id sel ->
  loading_then_settled id
    (request_outcome h Background.cfg sel
       [EvInject id (UpsertSummaryBubble (VStr loading_text) true)])
    (Background.onCommand h menu_id start).
Proof.
  intros Hne Ht.
  assert (Hinj : injectable h id = true) by apply Ht.
  rewrite (Background_onCommand_trigger h id sel start Ht Hne).
  pose proof (handleSummarizeInTab_run h id sel Hinj) as R.
  destruct R as [net [Hr R]].
  rewrite (try_catch_returned _ _ _ tt) by exact Hr.
  now exists net.
Qed.

(** The same listeners against a service that answers: what the page
    shows. *)
Lemma Background_onClicked_page h info tab id sel (k : nat) r :
  injectable h id = true -> sel <> [] ->
  menu_trigger info tab id sel ->
  answers h Background.cfg sel k r ->
  ok r = true \/ status r <> 429 \/ k = 3%nat ->
  bubble_goes id
    [(loading_text, true); (text_of (final_text (settle h r)), false)]
    (Background.onClicked h info tab start).
Proof.
  intros Hinj Hne Ht Ha Hstop.
  rewrite <- (request_outcome_settles h Background.cfg sel k r
                [EvInject id (UpsertSummaryBubble (VStr loading_text) true)]);
    auto.
  - apply bubble_goes_chain.
    now apply (Background_onClicked_chain h info tab id sel).
  - rewrite (menu_trigger_trimmed _ _ _ _ Ht); exact Hne.
Qed.

Lemma Background_onCommand_page h id sel (k : nat) r :
  sel <> [] ->
  shortcut_trigger h id sel ->
  answers h Background.cfg sel k r ->
  ok r = true \/ status r <> 429 \/ k = 3%nat ->
  bubble_goes id
    [(loading_text, true); (text_of (final_text (settle h r)), false)]
    (Background.onCommand h menu_id start).
Proof.
  intros Hne Ht Ha Hstop.
  rewrite <- (request_outcome_settles h Background.cfg sel k r
                [EvInject id (UpsertSummaryBubble (VStr loading_text) true)]);
    auto.
  - apply bubble_goes_chain.
    now apply (Background_onCommand_chain h id sel).
  - rewrite (shortcut_trigger_trimmed _ _ _ Ht); exact Hne.
Qed.

Lemma guarded_summarizeAndShow_page h id sel (k : nat) r :
  injectable h id = true ->
  trim sel <> [] ->
  answers h Part001.cfg sel k r ->
  ok r = true \/ status r <> 429 \/ k = 3%nat ->
  overlay_added id (text_of (final_text (settle h r)))
    (try_catch (Part001.summarizeAndShow h id sel) (Part001.showError h id)
       start).
Proof.
  intros Hinj Hs Ha Hstop.
  rewrite (guarded_summarizeAndShow_settled h id sel k r Hinj Hs Ha Hstop).
  replace (backoff Part001.cfg (lit "/summarize") (effective_request h sel)
             k 500
           ++ [EvFetch (API_BASE Part001.cfg ++ lit "/summarize")
                 (effective_request h sel);
               EvInject id (InPageRenderBubble (final_text (settle h r)))])
    with ((backoff Part001.cfg (lit "/summarize") (effective_request h sel)
             k 500
           ++ [EvFetch (API_BASE Part001.cfg ++ lit "/summarize")
                 (effective_request h sel)])
          ++ [EvInject id (InPageRenderBubble (final_text (settle h r)))])
    by (rewrite <- app_assoc; reflexivity).
  apply overlay_added_after.
  apply Forall_app; split; [apply network_backoff|].
  repeat constructor.
Qed.

Lemma Part001_onClicked_page h info tab id sel (k : nat) r :
  injectable h id = true -> sel <> [] ->
  menu_trigger info tab id sel ->
  answers h Part001.cfg sel k r ->
  ok r = true \/ status r <> 429 \/ k = 3%nat ->
  overlay_added id (text_of (final_text (settle h r)))
    (Part001.onClicked h info tab start).
Proof.
  intros Hinj Hne Ht Ha Hstop.
  rewrite (Part001_onClicked_trigger h info tab id sel Ht Hne).
  apply (guarded_summarizeAndShow_page h id sel k r); auto.
  rewrite (menu_trigger_trimmed _ _ _ _ Ht); exact Hne.
Qed.

Lemma Part001_onCommand_page h id sel (k : nat) r :
  sel <> [] ->
  shortcut_trigger h id sel ->
  answers h Part001.cfg sel k r ->
  ok r = true \/ status r <> 429 \/ k = 3%nat ->
  overlay_added id (text_of (final_text (settle h r)))
    (Part001.onCommand h menu_id start).
Proof.
  intros Hne Ht Ha Hstop.
  assert (Hinj : injectable h id = true) by apply Ht.
  assert (Hs : trim sel <> [])
    by (rewrite (shortcut_trigger_trimmed _ _ _ Ht); exact Hne).
  pose proof (guarded_summarizeAndShow_page h id sel k r Hinj Hs Ha Hstop)
    as G.
  rewrite (Part001_onCommand_trigger h id sel start Ht Hne).
  rewrite (guarded_summarizeAndShow_settled h id sel k r Hinj Hs Ha Hstop)
    in *.
  exact G.
Qed.

(** ** Texts that cannot be encoded *)

Lemma escape_unit_head d :
  exists x rest,
    Part001.escape_unit d = x :: rest /\
    (is_low_surrogate d = false -> is_low_surrogate x = false).
Proof.
  unfold Part001.escape_unit.
  destruct (d =? 38)%N; [now exists 38%N, (lit "amp;")|].
  destruct (d =? 60)%N; [now exists 38%N, (lit "lt;")|].
  destruct (d =? 62)%N; [now exists 38%N, (lit "gt;")|].
  now exists d, [].
Qed.

(** Escaping does not mend an unpaired surrogate, whatever follows that
    does not begin with a low surrogate. *)
Lemma escape_ill_formed (n : nat) : forall (text tail : jsstring),
  (List.length text <= n)%nat ->
  code_points text = None ->
  match tail with d :: _ => is_low_surrogate d = false | [] => True end ->
  code_points (flat_map Part001.escape_unit text ++ tail) = None.
Proof.
  induction n as [|n IH]; intros [|c r] tail Hn Ht Hl;
    cbn [List.length] in Hn; try lia; try discriminate.
  cbn [flat_map]; cbn [code_points] in Ht.
  destruct (is_low_surrogate c) eqn:Elow.
  - rewrite (escape_unit_surrogate c) by (unfold plain; now rewrite Elow).
    cbn [app code_points]; now rewrite Elow.
  - destruct (is_high_surrogate c) eqn:Ehigh.
    + rewrite (escape_unit_surrogate c)
        by (unfold plain; rewrite Ehigh; apply andb_false_r).
      cbn [app code_points]; rewrite Elow, Ehigh.
      destruct r as [|d r']; cbn [flat_map app].
      * destruct tail as [|t tail']; [reflexivity | now rewrite Hl].
      * destruct (is_low_surrogate d) eqn:Dlow.
        -- rewrite (escape_unit_surrogate d)
             by (unfold plain; now rewrite Dlow).
           cbn [app]; rewrite Dlow.
           rewrite (IH r' tail); [reflexivity| | |exact Hl].
           ++ cbn [List.length] in Hn; lia.
           ++ now destruct (code_points r').
        -- destruct (escape_unit_head d) as [x [rest [Ex Hx]]].
           rewrite Ex; cbn [app]; now rewrite (Hx Dlow).
    + rewrite <- app_assoc, code_points_plain_app
        by (apply escape_unit_plain; unfold plain; now rewrite Elow, Ehigh).
      rewrite (IH r tail); [reflexivity|lia| |exact Hl].
      now destruct (code_points r).
Qed.

Lemma fallback_html_ill_formed (text : jsstring) :
  ~ well_formed text ->
  encodeURIComponent (Part001.fallback_html text) = None.
Proof.
  intros H; unfold encodeURIComponent, Part001.fallback_html.
  rewrite code_points_plain_app by reflexivity.
  rewrite escape_html_units.
  rewrite (escape_ill_formed (List.length text)); [reflexivity|lia| |].
  - unfold well_formed in H.
    destruct (code_points text); [elim H; discriminate | reflexivity].
  - reflexivity.
Qed.

(** The popup's callback on an error reply with a text. *)
Lemma reply_friendly msg :
  msg <> [] ->
  Popup.onResponse (Some (ReplyError msg))
  = inr (Popup.mkView []
           (Popup.InnerHTML (Popup.error_span (Popup.friendly msg)))).
Proof. destruct msg as [|c msg]; [now intros H; elim H | reflexivity]. Qed.

(** * The claims *)



(** C8: when the answer the helper stops at is a 2xx, the call returns
    what [JSON.parse] makes of the body, unchanged, and when the body
    does not parse it throws [ParseError], whose message contains the
    raw body text. *)
Theorem postJSON_success_parses_or_reports :
  forall cfg (h : host) path payload (w : world) (k : nat) (r : response),
    cfg = Background.cfg \/ cfg = Part001.cfg ->
    (k <= 3)%nat ->
    (forall i, (i < k)%nat ->
       rate_limited h cfg path payload (fetched w + i)) ->
    server h (fetched w + k) (API_BASE cfg ++ path) payload = Responded r ->
    ok r = true ->
    fst (postJSON h cfg path payload w) =
      match JSON_parse h (body r) with
      | Some v => Ret v
      | None => Throw (ParseError (body r))
      end /\
    includes (String_of_error (ParseError (body r))) (body r) = true.
Proof.
  intros cfg h path payload w k r Hcfg Hk Hlim Hs Hok.
  assert (HM : MAX_RETRIES cfg = 3) by (destruct Hcfg; subst; reflexivity).
  split.
  - rewrite (postJSON_settles h cfg path payload k w r) by (auto; lia).
    unfold settle; now rewrite Hok.
  - change (String_of_error (ParseError (body r)))
      with (lit "Error: Invalid JSON from backend: " ++ body r).
    rewrite <- (app_nil_r (body r)) at 1.
    apply includes_occurrence.
Qed.

Lemma postJSON_success_parses_or_reports_witness :
  (Background.cfg = Background.cfg \/ Background.cfg = Part001.cfg) /\
  (0 <= 3)%nat /\
  ok Demo.garbled = true /\
  fst (postJSON Demo.garbled_host Background.cfg (lit "/summarize") VNull
                start) =
    Throw (ParseError (lit "<html>")).
Proof.
  split; [now left|]; split; [lia|]; split; [reflexivity|].
  exact (proj1 (postJSON_success_parses_or_reports Background.cfg
           Demo.garbled_host
           (lit "/summarize") VNull start 0%nat Demo.garbled
           (or_introl eq_refl) (Nat.le_0_l 3)
           (fun i (H : (i < 0)%nat) => match Nat.nlt_0_r i H with end)
           eq_refl eq_refl)).
Defined.

(** C3: for a text that is empty or all whitespace, [summarize] throws
    [ValidationError] and leaves the world as it found it: nothing is
    fetched, nothing else is done. *)
Theorem summarize_rejects_blank_text :
  forall (h : host) cfg (s : jsstring) tone maxSentences (w : world),
    forallb is_ws s = true ->
    summarize h cfg (VStr s) tone maxSentences w = (Throw ValidationError, w).
Proof.
  intros h cfg s tone maxSentences w Hs.
  unfold summarize, blank.
  destruct s as [|c s']; [reflexivity|].
  cbn [truthy]; rewrite (trim_blank _ Hs); reflexivity.
Qed.

Lemma summarize_rejects_blank_text_witness :
  forallb is_ws (lit "   ") = true /\
  summarize Demo.healthy_host Background.cfg (VStr (lit "   "))
            VUndefined VUndefined start
  = (Throw ValidationError, start) /\
  summarize Demo.healthy_host Background.cfg (VStr [])
            VUndefined VUndefined start
  = (Throw ValidationError, start).
Proof.
  split; [reflexivity|]; split.
  - exact (summarize_rejects_blank_text Demo.healthy_host Background.cfg
             (lit "   ") VUndefined VUndefined start eq_refl).
  - exact (summarize_rejects_blank_text Demo.healthy_host Background.cfg []
             VUndefined VUndefined start eq_refl).
Defined.

(** C1, as the code has it: the listeners that read the stored sentence
    count (the context-menu and shortcut listeners of both service
    workers) and the popup, which reads the typed one, compute
    [Math.max(1, Math.min(10, parseInt(raw || "3", 10)))].  Whenever
    [parseInt] finds a number this is that number clamped into [1,10],
    and it is what the request body carries: "0" gives 1, 99 gives 10,
    an absent value gives 3, and a stored number goes by its string, so
    2.5 gives 2, 5e-7 gives 5 and 1e21 gives 1.  When [parseInt] finds
    none the result is [NaN] and the body carries [null].  [summarize]
    itself does not clamp: it sends the count it is given (3 when given
    none), and so does the message listener for the payload's count. *)
Theorem maxSentences_clamped_by_readers :
  (forall raw z,
     parseInt (or_else raw (VStr (lit "3"))) = Int z ->
     clamp_maxSentences raw = Int (Z.max 1 (Z.min 10 z)) /\
     wire (VNum (clamp_maxSentences raw))
       = VNum (Int (Z.max 1 (Z.min 10 z))) /\
     in_range (wire (VNum (clamp_maxSentences raw)))) /\
  (forall raw,
     parseInt (or_else raw (VStr (lit "3"))) = NaN ->
     clamp_maxSentences raw = NaN /\
     wire (VNum (clamp_maxSentences raw)) = VNull) /\
  (forall raw,
     parseInt (or_else raw (VStr (lit "3"))) = NaN \/
     exists z, parseInt (or_else raw (VStr (lit "3"))) = Int z) /\
  (forall h : host,
     let m := wire (VNum (clamp_maxSentences (stored_maxSentences h))) in
     (forall info tab, appends (sends m) (Background.onClicked h info tab)) /\
     (forall command, appends (sends m) (Background.onCommand h command)) /\
     (forall info tab, appends (sends m) (Part001.onClicked h info tab)) /\
     (forall command, appends (sends m) (Part001.onCommand h command))) /\
  (forall selectedText toneValue maxValue,
     payload_maxSentences
       (msg_payload (Popup.payload_of selectedText toneValue maxValue))
     = VNum (clamp_maxSentences (VStr maxValue))) /\
  (forall (h : host) cfg text tone m,
     appends (sends (wire (default_to (VNum (Int 3)) m)))
             (summarize h cfg text tone m)) /\
  (forall (h : host) text tone m,
     appends (sends (wire (default_to (VNum (Int 3)) m)))
       (Background.onMessage h
          (mkMessage (lit "SUMMARIZE_SELECTION") (request text tone m)))) /\
  clamp_maxSentences (VStr (lit "0")) = Int 1 /\
  clamp_maxSentences (VNum (Int 99)) = Int 10 /\
  clamp_maxSentences (VStr (lit "99")) = Int 10 /\
  clamp_maxSentences VUndefined = Int 3 /\
  clamp_maxSentences (VNum (Finite false 25 (-1))) = Int 2 /\
  clamp_maxSentences (VNum (Finite false 5 (-7))) = Int 5 /\
  clamp_maxSentences (VNum (Finite false 1 21)) = Int 1 /\
  clamp_maxSentences (VNum (Int (10 ^ 20))) = Int 10 /\
  clamp_maxSentences (VNum (Infinity false)) = NaN.
Proof.
  split; [|split; [|split; [|split; [|split; [|split; [|split]]]]]].
  - intros raw z Hz; rewrite (clamp_of_Int raw z Hz).
    rewrite wire_clamped by lia.
    split; [reflexivity|]; split; [reflexivity|].
    exists (Z.max 1 (Z.min 10 z)); split; [reflexivity | lia].
  - intros raw Hn; unfold clamp_maxSentences; rewrite Hn.
    split; reflexivity.
  - intros raw; apply parseInt10_cases.
  - intros h m; subst m.
    split; [intros; apply Background_onClicked_sends|].
    split; [intros; apply Background_onCommand_sends|].
    split; [intros; apply Part001_onClicked_sends|].
    intros; apply Part001_onCommand_sends.
  - reflexivity.
  - intros; apply summarize_sends.
  - intros; now apply (onMessage_sends h _ text tone m).
  - split; [vm_compute; reflexivity|].
    split; [vm_compute; reflexivity|].
    split; [vm_compute; reflexivity|].
    split; [vm_compute; reflexivity|].
    split; [vm_compute; reflexivity|].
    split; [vm_compute; reflexivity|].
    split; [vm_compute; reflexivity|].
    split; vm_compute; reflexivity.
Qed.

Lemma maxSentences_clamped_by_readers_witness :
  parseInt (or_else (VStr (lit "0")) (VStr (lit "3"))) = Int 0 /\
  clamp_maxSentences (VStr (lit "0")) = Int (Z.max 1 (Z.min 10 0)) /\
  wire (VNum (clamp_maxSentences (VStr (lit "0"))))
    = VNum (Int (Z.max 1 (Z.min 10 0))) /\
  in_range (wire (VNum (clamp_maxSentences (VStr (lit "0"))))) /\
  parseInt (or_else (VStr (lit "abc")) (VStr (lit "3"))) = NaN /\
  clamp_maxSentences (VStr (lit "abc")) = NaN /\
  wire (VNum (clamp_maxSentences (VStr (lit "abc")))) = VNull.
Proof.
  split; [reflexivity|].
  destruct (proj1 maxSentences_clamped_by_readers (VStr (lit "0")) 0 eq_refl)
    as [A [B C]].
  split; [exact A|]; split; [exact B|]; split; [exact C|].
  split; [reflexivity|].
  exact (proj1 (proj2 maxSentences_clamped_by_readers) (VStr (lit "abc"))
           eq_refl).
Defined.

(** C1 as stated fails: a request from another context that asks for 99
    sentences reaches the service with 99; for a stored "abc" the
    request carries [null], not 3; a stored number 0 is sent as 3,
    not 1. *)
Lemma maxSentences_not_always_in_range :
  sent_maxSentences
    (trace (snd (Background.onMessage Demo.healthy_host Demo.ask_99 start)))
    = [VNum (Int 99)] /\
  ~ in_range (VNum (Int 99)) /\
  sent_maxSentences
    (trace (snd (Background.onCommand (Demo.storing (VStr (lit "abc")))
                                      menu_id start)))
    = [VNull] /\
  ~ in_range VNull /\
  sent_maxSentences
    (trace (snd (Background.onCommand (Demo.storing (VNum (Int 0)))
                                      menu_id start)))
    = [VNum (Int 3)].
Proof.
  split; [vm_compute; reflexivity|]; split.
  { intros [z [E R]].
    assert (E' : Int 99 = Int z) by congruence.
    apply Int_inj in E'; lia. }
  split; [vm_compute; reflexivity|]; split; [|vm_compute; reflexivity].
  intros [z [E R]]; discriminate.
Qed.

(** C9, as the code has it: when the menu or the shortcut is triggered
    and the selection comes back empty, in a tab that accepts injection,
    the listener of either service worker puts "No text selected." on
    show (in background.js as the text of the one bubble, in part_001
    as a new overlay), fetches nothing, does nothing else and returns
    normally.  In a tab that refuses injection the menu listener of
    part_001 shows the same notice in its fallback document, again
    without a fetch, while the menu listener of background.js has no
    fallback: it fails with the refusal and shows nothing. *)
Theorem empty_selection_shows_notice_without_request :
  forall (h : host) (id : Z),
    (injectable h id = true ->
     (forall info tab, menu_trigger info tab id [] ->
        Background.onClicked h info tab start =
          (Ret tt,
           mkWorld 0 [EvInject id
                        (UpsertSummaryBubble
                           (VStr (lit "No text selected.")) false)]) /\
        bubble_goes id [(lit "No text selected.", false)]
          (Background.onClicked h info tab start) /\
        Part001.onClicked h info tab start =
          (Ret tt,
           mkWorld 0 [EvInject id
                        (InPageRenderBubble
                           (VStr (lit "No text selected.")))]) /\
        overlay_added id (lit "No text selected.")
          (Part001.onClicked h info tab start)) /\
     (shortcut_trigger h id [] ->
        Background.onCommand h menu_id start =
          (Ret tt,
           mkWorld 0 [EvInject id
                        (UpsertSummaryBubble
                           (VStr (lit "No text selected.")) false)]) /\
        bubble_goes id [(lit "No text selected.", false)]
          (Background.onCommand h menu_id start) /\
        Part001.onCommand h menu_id start =
          (Ret tt,
           mkWorld 0 [EvInject id
                        (InPageRenderBubble
                           (VStr (lit "No text selected.")))]) /\
        overlay_added id (lit "No text selected.")
          (Part001.onCommand h menu_id start))) /\
    (injectable h id = false ->
     forall info tab, menu_trigger info tab id [] ->
       (exists enc,
          encodeURIComponent
            (Part001.fallback_html (lit "No text selected.")) = Some enc /\
          Part001.onClicked h info tab start =
            (Ret tt,
             mkWorld 0 [EvCreateTab (Part001.data_url_prefix ++ enc)])) /\
       Background.onClicked h info tab start = (Throw (refusal h id), start)).
Proof.
  intros h id; split; [intros Hinj; split|intros Hinj].
  - intros info tab [Hm [Ht Hs]].
    assert (B : Background.onClicked h info tab start =
                (Ret tt,
                 mkWorld 0 [EvInject id
                              (UpsertSummaryBubble
                                 (VStr (lit "No text selected.")) false)])).
    { unfold Background.onClicked, Background.showBubble.
      rewrite Hm, Ht, Hs, jsstring_eqb_refl; cbn [negb truthy].
      now rewrite inject_ok. }
    assert (P : Part001.onClicked h info tab start =
                (Ret tt,
                 mkWorld 0 [EvInject id
                              (InPageRenderBubble
                                 (VStr (lit "No text selected.")))])).
    { unfold Part001.onClicked, Part001.showBubbleInTab.
      rewrite Hm, Ht, Hs, jsstring_eqb_refl; cbn [negb truthy].
      unfold try_catch; now rewrite inject_ok. }
    split; [exact B|]; split; [|split; [exact P|]].
    + rewrite B.
      exact (bubble_goes_once id (VStr (lit "No text selected.")) false
               (Ret tt) 0).
    + rewrite P.
      exact (overlay_added_after id (VStr (lit "No text selected."))
               (Ret tt) 0 [] (Forall_nil _)).
  - intros [Ht [_ Hs]].
    assert (B : Background.onCommand h menu_id start =
                (Ret tt,
                 mkWorld 0 [EvInject id
                              (UpsertSummaryBubble
                                 (VStr (lit "No text selected.")) false)])).
    { unfold Background.onCommand, Background.showBubble.
      rewrite jsstring_eqb_refl, Ht; cbn [negb].
      rewrite try_catch_bind, probe_ok, Hs by exact Hinj; cbn [negb truthy].
      unfold try_catch; now rewrite inject_ok. }
    assert (P : Part001.onCommand h menu_id start =
                (Ret tt,
                 mkWorld 0 [EvInject id
                              (InPageRenderBubble
                                 (VStr (lit "No text selected.")))])).
    { unfold Part001.onCommand, Part001.showBubbleInTab.
      rewrite jsstring_eqb_refl, Ht; cbn [negb].
      unfold bind at 1; rewrite try_catch_bind, probe_ok, Hs by exact Hinj.
      cbn [negb truthy]; unfold try_catch at 1; cbn [ret].
      unfold try_catch; now rewrite inject_ok. }
    split; [exact B|]; split; [|split; [exact P|]].
    + rewrite B.
      exact (bubble_goes_once id (VStr (lit "No text selected.")) false
               (Ret tt) 0).
    + rewrite P.
      exact (overlay_added_after id (VStr (lit "No text selected."))
               (Ret tt) 0 [] (Forall_nil _)).
  - intros info tab [Hm [Ht Hs]]; split.
    + assert (E : exists enc,
                 encodeURIComponent
                   (Part001.fallback_html (lit "No text selected."))
                 = Some enc) by (vm_compute; eexists; reflexivity).
      destruct E as [enc E]; exists enc; split; [exact E|].
      unfold Part001.onClicked, Part001.showBubbleInTab.
      rewrite Hm, Ht, Hs, jsstring_eqb_refl; cbn [negb truthy].
      unfold try_catch; rewrite inject_refused by exact Hinj.
      unfold Part001.openFallback, no_selection_text; now rewrite E.
    + unfold Background.onClicked, Background.showBubble.
      rewrite Hm, Ht, Hs, jsstring_eqb_refl; cbn [negb truthy].
      now rewrite inject_refused.
Qed.

Lemma empty_selection_shows_notice_without_request_witness :
  injectable Demo.healthy_host 7 = true /\
  shortcut_trigger Demo.healthy_host 7 [] /\
  Background.onCommand Demo.healthy_host menu_id start =
    (Ret tt,
     mkWorld 0 [EvInject 7
                  (UpsertSummaryBubble
                     (VStr (lit "No text selected.")) false)]) /\
  injectable Demo.restricted_page 7 = false /\
  menu_trigger (Demo.click (lit "  ")) (Some 7) 7 [] /\
  Background.onClicked Demo.restricted_page (Demo.click (lit "  ")) (Some 7)
    start = (Throw Demo.refused, start).
Proof.
  assert (T : shortcut_trigger Demo.healthy_host 7 [])
    by (split; [reflexivity|]; split; reflexivity).
  assert (C : menu_trigger (Demo.click (lit "  ")) (Some 7) 7 [])
    by (split; [reflexivity|]; split; reflexivity).
  split; [reflexivity|]; split; [exact T|]; split.
  - exact (proj1 (proj2 (proj1
             (empty_selection_shows_notice_without_request
                Demo.healthy_host 7) eq_refl) T)).
  - split; [reflexivity|]; split; [exact C|].
    exact (proj2 (proj2
             (empty_selection_shows_notice_without_request
                Demo.restricted_page 7) eq_refl
             (Demo.click (lit "  ")) (Some 7) C)).
Defined.

(** C9 as stated fails for the menu listener of
    [src/extension/background.js] in a tab that refuses injection: with
    nothing but blanks selected it shows no notice anywhere and does
    not stop quietly; the refusal of [executeScript] is what the
    listener ends with. *)
Lemma background_refused_tab_shows_no_notice :
  menu_trigger (Demo.click (lit "  ")) (Some 7) 7 [] /\
  injectable Demo.restricted_page 7 = false /\
  Background.onClicked Demo.restricted_page (Demo.click (lit "  ")) (Some 7)
    start = (Throw Demo.refused, start) /\
  shown (trace (snd (Background.onClicked Demo.restricted_page
                       (Demo.click (lit "  ")) (Some 7) start))) = [] /\
  fst (Background.onClicked Demo.restricted_page
         (Demo.click (lit "  ")) (Some 7) start) <> Ret tt.
Proof.
  split; [split; [reflexivity|]; split; reflexivity|].
  split; [reflexivity|]; split; [reflexivity|]; split; [reflexivity|].
  discriminate.
Qed.

(** C10, as the code has it: when the service call succeeds with a
    parsed result that [summary] can be read off (anything but [null])
    and the value read is falsy (no such field, the empty string, null,
    0, false), the menu and shortcut listeners of both service workers
    show the placeholder "(no summary returned)": in background.js the
    bubble goes from the loading text to the placeholder, in part_001
    an overlay with the placeholder is added.  When the parsed result
    is [null], reading [summary] throws and what is shown instead is
    "Error: " followed by that TypeError. *)
Theorem falsy_summary_shows_placeholder :
  forall (h : host) (id : Z) (sel : jsstring) (k : nat) (r : response)
         (result : jsval),
    injectable h id = true ->
    sel <> [] ->
    ok r = true ->
    JSON_parse h (body r) = Some result ->
    (forall summary,
       get_prop result (lit "summary") = inr summary ->
       truthy summary = false ->
       (answers h Background.cfg sel k r ->
        (forall info tab, menu_trigger info tab id sel ->
           shown (trace (snd (Background.onClicked h info tab start)))
           = [VStr loading_text; VStr (lit "(no summary returned)")] /\
           bubble_goes id
             [(loading_text, true); (lit "(no summary returned)", false)]
             (Background.onClicked h info tab start)) /\
        (shortcut_trigger h id sel ->
           shown (trace (snd (Background.onCommand h menu_id start)))
           = [VStr loading_text; VStr (lit "(no summary returned)")] /\
           bubble_goes id
             [(loading_text, true); (lit "(no summary returned)", false)]
             (Background.onCommand h menu_id start))) /\
       (answers h Part001.cfg sel k r ->
        (forall info tab, menu_trigger info tab id sel ->
           shown (trace (snd (Part001.onClicked h info tab start)))
           = [VStr (lit "(no summary returned)")] /\
           overlay_added id (lit "(no summary returned)")
             (Part001.onClicked h info tab start)) /\
        (shortcut_trigger h id sel ->
           shown (trace (snd (Part001.onCommand h menu_id start)))
           = [VStr (lit "(no summary returned)")] /\
           overlay_added id (lit "(no summary returned)")
             (Part001.onCommand h menu_id start)))) /\
    (result = VNull ->
     (answers h Background.cfg sel k r ->
      (forall info tab, menu_trigger info tab id sel ->
         shown (trace (snd (Background.onClicked h info tab start)))
         = [VStr loading_text;
            VStr (lit "Error: TypeError: Cannot read properties of null (reading 'summary')")]) /\
      (shortcut_trigger h id sel ->
         shown (trace (snd (Background.onCommand h menu_id start)))
         = [VStr loading_text;
            VStr (lit "Error: TypeError: Cannot read properties of null (reading 'summary')")])) /\
     (answers h Part001.cfg sel k r ->
      (forall info tab, menu_trigger info tab id sel ->
         shown (trace (snd (Part001.onClicked h info tab start)))
         = [VStr (lit "Error: TypeError: Cannot read properties of null (reading 'summary')")]) /\
      (shortcut_trigger h id sel ->
         shown (trace (snd (Part001.onCommand h menu_id start)))
         = [VStr (lit "Error: TypeError: Cannot read properties of null (reading 'summary')")]))).
Proof.
  intros h id sel k r result Hinj Hne Hok Hp; split.
  - intros summary Hg Hf.
    assert (F : final_text (settle h r)
                = VStr (lit "(no summary returned)")).
    { unfold settle; rewrite Hok, Hp; cbn [final_text]; rewrite Hg.
      unfold or_else; now rewrite Hf. }
    assert (T : text_of (final_text (settle h r))
                = lit "(no summary returned)") by now rewrite F.
    split; intros Ha; split.
    + intros info tab Ht; split; [rewrite <- F | rewrite <- T].
      * now apply (Background_onClicked_settled h info tab id sel k r); auto.
      * now apply (Background_onClicked_page h info tab id sel k r); auto.
    + intros Ht; split; [rewrite <- F | rewrite <- T].
      * now apply (Background_onCommand_settled h id sel k r); auto.
      * now apply (Background_onCommand_page h id sel k r); auto.
    + intros info tab Ht; split; [rewrite <- F | rewrite <- T].
      * now apply (Part001_onClicked_settled h info tab id sel k r); auto.
      * now apply (Part001_onClicked_page h info tab id sel k r); auto.
    + intros Ht; split; [rewrite <- F | rewrite <- T].
      * now apply (Part001_onCommand_settled h id sel k r); auto.
      * now apply (Part001_onCommand_page h id sel k r); auto.
  - intros ->.
    assert (F : final_text (settle h r)
                = VStr (lit "Error: TypeError: Cannot read properties of null (reading 'summary')")).
    { unfold settle; rewrite Hok, Hp; reflexivity. }
    split; intros Ha; split.
    + intros info tab Ht; rewrite <- F.
      now apply (Background_onClicked_settled h info tab id sel k r); auto.
    + intros Ht; rewrite <- F.
      now apply (Background_onCommand_settled h id sel k r); auto.
    + intros info tab Ht; rewrite <- F.
      now apply (Part001_onClicked_settled h info tab id sel k r); auto.
    + intros Ht; rewrite <- F.
      now apply (Part001_onCommand_settled h id sel k r); auto.
Qed.

Lemma falsy_summary_shows_placeholder_witness :
  injectable (Demo.page (mkResponse 200 (lit "{}"))) 7 = true /\
  lit "hello" <> [] /\
  ok (mkResponse 200 (lit "{}")) = true /\
  JSON_parse (Demo.page (mkResponse 200 (lit "{}"))) (lit "{}")
    = Some (VObj []) /\
  get_prop (VObj []) (lit "summary") = inr VUndefined /\
  truthy VUndefined = false /\
  answers (Demo.page (mkResponse 200 (lit "{}"))) Background.cfg
          (lit "hello") 0 (mkResponse 200 (lit "{}")) /\
  shortcut_trigger (Demo.page (mkResponse 200 (lit "{}"))) 7 (lit "hello") /\
  shown (trace (snd (Background.onCommand
                       (Demo.page (mkResponse 200 (lit "{}")))
                       menu_id start)))
  = [VStr loading_text; VStr (lit "(no summary returned)")] /\
  JSON_parse Demo.null_page (lit "null") = Some VNull /\
  answers Demo.null_page Part001.cfg (lit "hello") 0
          (mkResponse 200 (lit "null")) /\
  shortcut_trigger Demo.null_page 7 (lit "hello") /\
  shown (trace (snd (Part001.onCommand Demo.null_page menu_id start)))
  = [VStr (lit "Error: TypeError: Cannot read properties of null (reading 'summary')")].
Proof.
  assert (N : lit "hello" <> []) by discriminate.
  assert (A' : answers Demo.null_page Part001.cfg (lit "hello") 0
                       (mkResponse 200 (lit "null"))).
  { split; [lia|]; split; [intros i Hi; lia | reflexivity]. }
  assert (T' : shortcut_trigger Demo.null_page 7 (lit "hello"))
    by (split; [reflexivity|]; split; reflexivity).
  assert (A : answers (Demo.page (mkResponse 200 (lit "{}"))) Background.cfg
                      (lit "hello") 0 (mkResponse 200 (lit "{}"))).
  { split; [lia|]; split; [intros i Hi; lia | reflexivity]. }
  assert (T : shortcut_trigger (Demo.page (mkResponse 200 (lit "{}"))) 7
                               (lit "hello"))
    by (split; [reflexivity|]; split; reflexivity).
  split; [reflexivity|]; split; [exact N|]; split; [reflexivity|];
    split; [reflexivity|]; split; [reflexivity|]; split; [reflexivity|];
    split; [exact A|]; split; [exact T|]; split.
  - exact (proj1 (proj2 (proj1
             (proj1 (falsy_summary_shows_placeholder
                       (Demo.page (mkResponse 200 (lit "{}"))) 7
                       (lit "hello") 0 (mkResponse 200 (lit "{}")) (VObj [])
                       eq_refl N eq_refl eq_refl)
                VUndefined eq_refl eq_refl) A) T)).
  - split; [reflexivity|]; split; [exact A'|]; split; [exact T'|].
    exact (proj2 (proj2
             (proj2 (falsy_summary_shows_placeholder
                       Demo.null_page 7 (lit "hello") 0
                       (mkResponse 200 (lit "null")) VNull
                       eq_refl N eq_refl eq_refl)
                eq_refl) A') T').
Defined.

(** C10 as stated fails when the body of the 2xx answer is the JSON
    text [null]: the call succeeds, no summary is returned, and the
    bubble shows the TypeError of reading [summary] off [null], not
    the placeholder. *)
Lemma null_result_shows_error :
  ok (mkResponse 200 (lit "null")) = true /\
  JSON_parse Demo.null_page (lit "null") = Some VNull /\
  shortcut_trigger Demo.null_page 7 (lit "hello") /\
  answers Demo.null_page Background.cfg (lit "hello") 0
    (mkResponse 200 (lit "null")) /\
  shown (trace (snd (Background.onCommand Demo.null_page menu_id start)))
  = [VStr loading_text;
     VStr (lit "Error: TypeError: Cannot read properties of null (reading 'summary')")] /\
  ~ In (VStr (lit "(no summary returned)"))
       (shown (trace (snd (Background.onCommand Demo.null_page menu_id
                             start)))).
Proof.
  split; [reflexivity|]; split; [reflexivity|].
  split; [split; [reflexivity|]; split; reflexivity|].
  split; [split; [lia|]; split; [intros i Hi; lia | reflexivity]|].
  assert (E : shown (trace (snd (Background.onCommand Demo.null_page menu_id
                                   start)))
              = [VStr loading_text;
                 VStr (lit "Error: TypeError: Cannot read properties of null (reading 'summary')")])
    by (vm_compute; reflexivity).
  split; [exact E|].
  rewrite E; intros [H|[H|[]]]; discriminate.
Qed.

(** C6, as the code has it: in [src/extension/background.js] the menu
    and shortcut listeners, once they hold a non-empty selection in a
    tab that accepts injection, first put the loading bubble
    "Summarizing…" into the tab and only then make their request; the
    run ends with one more write to the bubble, of the text the
    request's outcome comes to, and writes nothing after it.  That text
    is the summary (or the placeholder) of the parsed answer, or
    "Error: " followed by the error: of the non-2xx answer the helper
    stopped at, of the body that did not parse, of the fetch that
    failed, or of reading [summary] off [null].  On a page that does
    not use the bubble's ids this is one bubble, showing first the
    loading text, dimmed, and then that text.  With the service
    returning a summary X the bubble shows "Summarizing…", then X.
    (The other service worker shows no loading bubble.) *)
Theorem background_shows_loading_then_result :
  forall (h : host) (id : Z) (sel : jsstring),
    injectable h id = true ->
    sel <> [] ->
    let o := request_outcome h Background.cfg sel
               [EvInject id (UpsertSummaryBubble (VStr loading_text) true)]
    in
    (forall info tab, menu_trigger info tab id sel ->
       loading_then_settled id o (Background.onClicked h info tab start) /\
       bubble_goes id
         [(loading_text, true); (text_of (final_text o), false)]
         (Background.onClicked h info tab start)) /\
    (shortcut_trigger h id sel ->
       loading_then_settled id o (Background.onCommand h menu_id start) /\
       bubble_goes id
         [(loading_text, true); (text_of (final_text o), false)]
         (Background.onCommand h menu_id start)) /\
    (trim sel = sel ->
     forall (k : nat),
       (k <= 3)%nat ->
       (forall i, (i < k)%nat ->
          rate_limited h Background.cfg (lit "/summarize")
            (effective_request h sel) i) ->
       (forall e,
          server h k (API_BASE Background.cfg ++ lit "/summarize")
            (effective_request h sel) = Rejected e ->
          final_text o = VStr (lit "Error: " ++ String_of_error e)) /\
       (forall r,
          server h k (API_BASE Background.cfg ++ lit "/summarize")
            (effective_request h sel) = Responded r ->
          (ok r = false -> status r <> 429 \/ k = 3%nat ->
           final_text o
           = VStr (lit "Error: "
                   ++ String_of_error (HttpError (status r) (body r)))) /\
          (ok r = true -> JSON_parse h (body r) = None ->
           final_text o
           = VStr (lit "Error: " ++ String_of_error (ParseError (body r)))) /\
          (forall result e,
             ok r = true -> JSON_parse h (body r) = Some result ->
             get_prop result (lit "summary") = inl e ->
             final_text o = VStr (lit "Error: " ++ String_of_error e)) /\
          (forall result summary,
             ok r = true -> JSON_parse h (body r) = Some result ->
             get_prop result (lit "summary") = inr summary ->
             final_text o = or_else summary (VStr no_summary_text)))) /\
    (forall (k : nat) r result X,
       answers h Background.cfg sel k r ->
       ok r = true ->
       JSON_parse h (body r) = Some result ->
       get_prop result (lit "summary") = inr (VStr X) ->
       X <> [] ->
       (forall info tab, menu_trigger info tab id sel ->
          shown (trace (snd (Background.onClicked h info tab start)))
          = [VStr (lit "Summarizing" ++ [ellipsis]); VStr X] /\
          bubble_goes id [(lit "Summarizing" ++ [ellipsis], true); (X, false)]
            (Background.onClicked h info tab start)) /\
       (shortcut_trigger h id sel ->
          shown (trace (snd (Background.onCommand h menu_id start)))
          = [VStr (lit "Summarizing" ++ [ellipsis]); VStr X] /\
          bubble_goes id [(lit "Summarizing" ++ [ellipsis], true); (X, false)]
            (Background.onCommand h menu_id start))).
Proof.
  intros h id sel Hinj Hne o; split; [|split; [|split]].
  - intros info tab Ht.
    pose proof (Background_onClicked_chain h info tab id sel Hinj Hne Ht)
      as C.
    split; [exact C | now apply bubble_goes_chain].
  - intros Ht.
    pose proof (Background_onCommand_chain h id sel Hne Ht) as C.
    split; [exact C | now apply bubble_goes_chain].
  - intros Htrim k Hk Hlim.
    assert (Hs : trim sel <> []) by now rewrite Htrim.
    split.
    + intros e Hr; subst o.
      now rewrite (request_outcome_rejected h Background.cfg sel k e)
        by auto.
    + intros r Hr.
      assert (A : answers h Background.cfg sel k r) by (split; auto).
      assert (S : forall (stop : ok r = true \/ status r <> 429
                                 \/ k = 3%nat),
                 o = settle h r).
      { intros stop; subst o.
        now apply (request_outcome_settles h Background.cfg sel k r); auto. }
      split; [|split; [|split]].
      * intros Hok Hstop; rewrite S by (destruct Hstop; auto).
        unfold settle; now rewrite Hok.
      * intros Hok Hp; rewrite S by auto.
        unfold settle; now rewrite Hok, Hp.
      * intros result e Hok Hp Hg; rewrite S by auto.
        unfold settle; rewrite Hok, Hp; cbn [final_text]; now rewrite Hg.
      * intros result summary Hok Hp Hg; rewrite S by auto.
        unfold settle; rewrite Hok, Hp; cbn [final_text]; now rewrite Hg.
  - intros k r result X Ha Hok Hp Hg HX.
    assert (F : final_text (settle h r) = VStr X).
    { unfold settle; rewrite Hok, Hp; cbn [final_text]; rewrite Hg.
      now destruct X. }
    assert (T : text_of (final_text (settle h r)) = X) by now rewrite F.
    split; [intros info tab Ht|intros Ht];
      (split; [rewrite <- F | rewrite <- T]).
    + now apply (Background_onClicked_settled h info tab id sel k r); auto.
    + now apply (Background_onClicked_page h info tab id sel k r); auto.
    + now apply (Background_onCommand_settled h id sel k r); auto.
    + now apply (Background_onCommand_page h id sel k r); auto.
Qed.

Lemma background_shows_loading_then_result_witness :
  injectable (Demo.page Demo.summary_X) 7 = true /\
  lit "hello" <> [] /\
  shortcut_trigger (Demo.page Demo.summary_X) 7 (lit "hello") /\
  answers (Demo.page Demo.summary_X) Background.cfg (lit "hello") 0
          Demo.summary_X /\
  ok Demo.summary_X = true /\
  lit "X" <> [] /\
  loading_then_settled 7
    (request_outcome (Demo.page Demo.summary_X) Background.cfg (lit "hello")
       [EvInject 7 (UpsertSummaryBubble (VStr loading_text) true)])
    (Background.onCommand (Demo.page Demo.summary_X) menu_id start) /\
  shown (trace (snd (Background.onCommand (Demo.page Demo.summary_X)
                                          menu_id start)))
  = [VStr (lit "Summarizing" ++ [ellipsis]); VStr (lit "X")] /\
  trim (lit "hello") = lit "hello" /\
  server (Demo.page Demo.busy) 3
    (API_BASE Background.cfg ++ lit "/summarize")
    (effective_request (Demo.page Demo.busy) (lit "hello"))
  = Responded Demo.busy /\
  final_text
    (request_outcome (Demo.page Demo.busy) Background.cfg (lit "hello")
       [EvInject 7 (UpsertSummaryBubble (VStr loading_text) true)])
  = VStr (lit "Error: Error: HTTP 429: slow down").
Proof.
  assert (N : lit "hello" <> []) by discriminate.
  assert (NX : lit "X" <> []) by discriminate.
  assert (L : forall i, (i < 3)%nat ->
            rate_limited (Demo.page Demo.busy) Background.cfg
              (lit "/summarize")
              (effective_request (Demo.page Demo.busy) (lit "hello")) i)
    by (intros i _; exists Demo.busy; split; reflexivity).
  pose proof (background_shows_loading_then_result
                (Demo.page Demo.busy) 7 (lit "hello") eq_refl N)
    as [_ [_ [HB _]]].
  assert (A : answers (Demo.page Demo.summary_X) Background.cfg
                      (lit "hello") 0 Demo.summary_X).
  { split; [lia|]; split; [intros i Hi; lia | reflexivity]. }
  assert (T : shortcut_trigger (Demo.page Demo.summary_X) 7 (lit "hello"))
    by (split; [reflexivity|]; split; reflexivity).
  pose proof (background_shows_loading_then_result
                (Demo.page Demo.summary_X) 7 (lit "hello") eq_refl N)
    as [_ [HS [_ HX]]].
  split; [reflexivity|]; split; [exact N|]; split; [exact T|];
    split; [exact A|]; split; [reflexivity|]; split; [exact NX|];
    split; [exact (proj1 (HS T))|]; split.
  - exact (proj1 (proj2 (HX 0%nat Demo.summary_X
                            (VObj [(lit "summary", VStr (lit "X"))]) (lit "X")
                            A eq_refl eq_refl eq_refl NX) T)).
  - split; [reflexivity|]; split; [reflexivity|].
    exact (proj1 (proj2 (HB eq_refl 3%nat (le_n 3) L) Demo.busy eq_refl)
             eq_refl (or_intror eq_refl)).
Defined.

(** C6 as stated fails for the service worker of [src/unnamed/part_001]:
    with "hello" selected and the service returning X, neither its
    shortcut listener nor its menu listener ever shows "Summarizing…";
    the only thing shown is X. *)
Lemma part001_shows_no_loading_bubble :
  shortcut_trigger (Demo.page Demo.summary_X) 7 (lit "hello") /\
  shown (trace (snd (Part001.onCommand (Demo.page Demo.summary_X)
                                       menu_id start)))
  = [VStr (lit "X")] /\
  menu_trigger (Demo.click (lit "hello")) (Some 7) 7 (lit "hello") /\
  shown (trace (snd (Part001.onClicked (Demo.page Demo.summary_X)
                       (Demo.click (lit "hello")) (Some 7) start)))
  = [VStr (lit "X")] /\
  ~ In (VStr loading_text) [VStr (lit "X")].
Proof.
  split; [split; [reflexivity|]; split; reflexivity|].
  split; [vm_compute; reflexivity|].
  split; [split; [reflexivity|]; split; reflexivity|].
  split; [vm_compute; reflexivity|].
  intros [H|[]]; discriminate.
Qed.

(** C5, as the code has it.  The friendly texts are chosen by the popup,
    from the text of the error it is sent: an error text containing
    "429" gives the rate-limit text, so every HTTP 429 failure does;
    otherwise one containing "402" or, in any letter case, "quota" gives
    the billing text, so an HTTP 402 failure does unless its body
    mentions 429; otherwise one containing "502" gives the model-busy
    text, so an HTTP 502 failure does unless its body has one of the
    earlier marks; any other text, an empty one and a missing reply
    give the generic one.  The bubble
    of the menu and shortcut paths gets no such mapping: it shows
    "Error: " followed by the error as a string. *)
Theorem failure_texts :
  (forall msg,
     includes msg (lit "429") = true ->
     Popup.onResponse (Some (ReplyError msg))
     = inr (Popup.mkView []
              (Popup.InnerHTML
                 (Popup.error_span
                    (lit "Rate limited. Try again shortly."))))) /\
  (forall msg,
     includes msg (lit "429") = false ->
     includes msg (lit "402") = true ->
     Popup.onResponse (Some (ReplyError msg))
     = inr (Popup.mkView []
              (Popup.InnerHTML
                 (Popup.error_span (lit "Billing/credits issue."))))) /\
  (forall pre word post,
     toLowerCase word = lit "quota" ->
     includes (pre ++ word ++ post) (lit "429") = false ->
     Popup.onResponse (Some (ReplyError (pre ++ word ++ post)))
     = inr (Popup.mkView []
              (Popup.InnerHTML
                 (Popup.error_span (lit "Billing/credits issue."))))) /\
  (forall msg,
     includes msg (lit "429") = false ->
     includes msg (lit "402") = false ->
     includes (toLowerCase msg) (lit "quota") = false ->
     includes msg (lit "502") = true ->
     Popup.onResponse (Some (ReplyError msg))
     = inr (Popup.mkView []
              (Popup.InnerHTML
                 (Popup.error_span (lit "Model is busy. Try again."))))) /\
  (forall msg,
     Popup.unmarked msg ->
     Popup.onResponse (Some (ReplyError msg))
     = inr (Popup.mkView []
              (Popup.InnerHTML
                 (Popup.error_span (lit "Something went wrong."))))) /\
  Popup.onResponse None
  = inr (Popup.mkView []
           (Popup.InnerHTML
              (Popup.error_span (lit "Something went wrong.")))) /\
  (forall b,
     Popup.onResponse
       (Some (ReplyError (String_of_error (HttpError 429 b))))
     = inr (Popup.mkView []
              (Popup.InnerHTML
                 (Popup.error_span
                    (lit "Rate limited. Try again shortly."))))) /\
  (forall b,
     includes b (lit "429") = false ->
     Popup.onResponse
       (Some (ReplyError (String_of_error (HttpError 402 b))))
     = inr (Popup.mkView []
              (Popup.InnerHTML
                 (Popup.error_span (lit "Billing/credits issue."))))) /\
  (forall b,
     includes b (lit "429") = false ->
     includes b (lit "402") = false ->
     includes (toLowerCase b) (lit "quota") = false ->
     Popup.onResponse
       (Some (ReplyError (String_of_error (HttpError 502 b))))
     = inr (Popup.mkView []
              (Popup.InnerHTML
                 (Popup.error_span (lit "Model is busy. Try again."))))) /\
  (forall (h : host) (id : Z) (sel : jsstring) (k : nat) (r : response),
     injectable h id = true ->
     sel <> [] ->
     ok r = false ->
     status r <> 429 \/ k = 3%nat ->
     (answers h Background.cfg sel k r ->
      (forall info tab, menu_trigger info tab id sel ->
         shown (trace (snd (Background.onClicked h info tab start)))
         = [VStr loading_text;
            VStr (lit "Error: "
                  ++ String_of_error (HttpError (status r) (body r)))]) /\
      (shortcut_trigger h id sel ->
         shown (trace (snd (Background.onCommand h menu_id start)))
         = [VStr loading_text;
            VStr (lit "Error: "
                  ++ String_of_error (HttpError (status r) (body r)))])) /\
     (answers h Part001.cfg sel k r ->
      (forall info tab, menu_trigger info tab id sel ->
         shown (trace (snd (Part001.onClicked h info tab start)))
         = [VStr (lit "Error: "
                  ++ String_of_error (HttpError (status r) (body r)))]) /\
      (shortcut_trigger h id sel ->
         shown (trace (snd (Part001.onCommand h menu_id start)))
         = [VStr (lit "Error: "
                  ++ String_of_error (HttpError (status r) (body r)))]))).
Proof.
  split; [|split; [|split; [|split; [|split; [|split;
    [|split; [|split; [|split]]]]]]]].
  - intros msg H; rewrite reply_friendly by (intros ->; discriminate).
    unfold Popup.friendly; now rewrite H.
  - intros msg H1 H2; rewrite reply_friendly by (intros ->; discriminate).
    unfold Popup.friendly; now rewrite H1, H2.
  - intros pre word post Hw H1.
    assert (Q : includes (toLowerCase (pre ++ word ++ post)) (lit "quota")
                = true).
    { rewrite !toLowerCase_app, Hw; apply includes_occurrence. }
    rewrite reply_friendly.
    + unfold Popup.friendly; rewrite H1, Q; now rewrite orb_true_r.
    + intros E; rewrite E in Q; discriminate.
  - intros msg H1 H2 H3 H4.
    rewrite reply_friendly by (intros ->; discriminate).
    unfold Popup.friendly; now rewrite H1, H2, H3, H4.
  - intros msg Hu; destruct msg as [|c msg]; [reflexivity|].
    rewrite reply_friendly by discriminate.
    now rewrite friendly_unmarked.
  - reflexivity.
  - intros b; unfold Popup.onResponse.
    rewrite http_error_string at 1.
    change (ToString (or_else (VStr (lit "Error: HTTP " ++ ?x)) ?d))
      with (lit "Error: HTTP " ++ x).
    now rewrite <- http_error_string, friendly_429.
  - intros b H; unfold Popup.onResponse.
    rewrite http_error_string at 1.
    change (ToString (or_else (VStr (lit "Error: HTTP " ++ ?x)) ?d))
      with (lit "Error: HTTP " ++ x).
    now rewrite <- http_error_string, friendly_402.
  - intros b H1 H2 H3; unfold Popup.onResponse.
    rewrite http_error_string at 1.
    change (ToString (or_else (VStr (lit "Error: HTTP " ++ ?x)) ?d))
      with (lit "Error: HTTP " ++ x).
    now rewrite <- http_error_string, friendly_502.
  - intros h id sel k r Hinj Hne Hok Hstop.
    assert (F : final_text (settle h r)
                = VStr (lit "Error: "
                        ++ String_of_error (HttpError (status r) (body r)))).
    { unfold settle; now rewrite Hok. }
    assert (S' : ok r = true \/ status r <> 429 \/ k = 3%nat)
      by (destruct Hstop; auto).
    split; intros Ha; split.
    + intros info tab Ht; rewrite <- F.
      now apply (Background_onClicked_settled h info tab id sel k r).
    + intros Ht; rewrite <- F.
      now apply (Background_onCommand_settled h id sel k r).
    + intros info tab Ht; rewrite <- F.
      now apply (Part001_onClicked_settled h info tab id sel k r).
    + intros Ht; rewrite <- F.
      now apply (Part001_onCommand_settled h id sel k r).
Qed.

Lemma failure_texts_witness :
  includes (lit "HTTP 429") (lit "429") = true /\
  Popup.onResponse (Some (ReplyError (lit "HTTP 429")))
  = inr (Popup.mkView []
           (Popup.InnerHTML
              (Popup.error_span (lit "Rate limited. Try again shortly.")))) /\
  includes (lit "HTTP 402") (lit "402") = true /\
  Popup.onResponse (Some (ReplyError (lit "HTTP 402")))
  = inr (Popup.mkView []
           (Popup.InnerHTML
              (Popup.error_span (lit "Billing/credits issue.")))) /\
  toLowerCase (lit "Quota") = lit "quota" /\
  Popup.onResponse
    (Some (ReplyError (lit "Error: " ++ lit "Quota" ++ lit " exceeded")))
  = inr (Popup.mkView []
           (Popup.InnerHTML
              (Popup.error_span (lit "Billing/credits issue.")))) /\
  includes (lit "HTTP 502") (lit "502") = true /\
  Popup.onResponse (Some (ReplyError (lit "HTTP 502")))
  = inr (Popup.mkView []
           (Popup.InnerHTML
              (Popup.error_span (lit "Model is busy. Try again.")))) /\
  Popup.unmarked (lit "boom") /\
  Popup.onResponse (Some (ReplyError (lit "boom")))
  = inr (Popup.mkView []
           (Popup.InnerHTML
              (Popup.error_span (lit "Something went wrong.")))) /\
  includes (lit "no credits") (lit "429") = false /\
  Popup.onResponse
    (Some (ReplyError (String_of_error (HttpError 402 (lit "no credits")))))
  = inr (Popup.mkView []
           (Popup.InnerHTML
              (Popup.error_span (lit "Billing/credits issue.")))).
Proof.
  destruct failure_texts
    as [G1 [G2 [G3 [G4 [G5 [_ [_ [H402 _]]]]]]]].
  assert (U : Popup.unmarked (lit "boom"))
    by (split; [reflexivity|]; split; [reflexivity|]; split; reflexivity).
  split; [reflexivity|]; split; [exact (G1 (lit "HTTP 429") eq_refl)|].
  split; [reflexivity|];
    split; [exact (G2 (lit "HTTP 402") eq_refl eq_refl)|].
  split; [reflexivity|]; split;
    [exact (G3 (lit "Error: ") (lit "Quota") (lit " exceeded")
               eq_refl eq_refl)|].
  split; [reflexivity|];
    split; [exact (G4 (lit "HTTP 502") eq_refl eq_refl eq_refl eq_refl)|].
  split; [exact U|]; split; [exact (G5 (lit "boom") U)|].
  split; [reflexivity|].
  exact (H402 (lit "no credits") eq_refl).
Defined.

(** C5 as stated fails.  On the shortcut path a spent 429 puts the raw
    error into the bubble, not the rate-limit text; and the popup's
    choice goes by the error's text, not its status, so an HTTP 402
    whose body mentions 429 is told as a rate limit. *)
Lemma bubble_shows_raw_error :
  shortcut_trigger (Demo.page Demo.busy) 7 (lit "hello") /\
  shown (trace (snd (Background.onCommand (Demo.page Demo.busy)
                                          menu_id start)))
  = [VStr loading_text; VStr (lit "Error: Error: HTTP 429: slow down")] /\
  lit "Error: Error: HTTP 429: slow down"
    <> lit "Rate limited. Try again shortly." /\
  Popup.friendly (String_of_error (HttpError 402 (lit "retry code 429")))
  = lit "Rate limited. Try again shortly.".
Proof.
  split; [repeat split; reflexivity|].
  split; [reflexivity|].
  split; [discriminate | reflexivity].
Qed.

(** C7, as the code has it: when the tab refuses the injection and
    the text has no unpaired surrogate, [showBubbleInTab] opens a new
    tab on a [data:] URL that holds the fallback document, in which the
    text stands between the head that ends in the opening [pre] tag and
    the tail that begins with the closing one, with every & written
    &amp;, every < written &lt; and every > written &gt;, so that
    no angle bracket of the text is left; "<b>&hi</b>" becomes
    "&lt;b&gt;&amp;hi&lt;/b&gt;".  A text with an unpaired surrogate is
    escaped all the same, but [encodeURIComponent] throws on the
    document: the call fails with a URIError and opens nothing. *)
Theorem fallback_document_escapes_text :
  forall (h : host) (id : Z) (text : jsstring) (w : world),
    injectable h id = false ->
    (well_formed text ->
     exists enc,
       encodeURIComponent
         (Part001.html_head ++ flat_map Part001.escape_unit text
                            ++ Part001.html_tail) = Some enc /\
       Part001.showBubbleInTab h id (VStr text) w =
         (Ret tt,
          mkWorld (fetched w)
            (trace w ++
             [EvCreateTab (lit "data:text/html;charset=utf-8," ++ enc)]))) /\
    (~ well_formed text ->
     Part001.showBubbleInTab h id (VStr text) w =
       (Throw (URIError (lit "URI malformed")), w)) /\
    Part001.fallback_html text
      = Part001.html_head ++ flat_map Part001.escape_unit text
                          ++ Part001.html_tail /\
    Part001.escape_html text = flat_map Part001.escape_unit text /\
    ~ In 60%N (Part001.escape_html text) /\
    ~ In 62%N (Part001.escape_html text) /\
    (exists before,
       Part001.html_head = before ++ lit "<pre style=" ++ [dquote] ++
         lit "white-space:pre-wrap;background:#fafafa;padding:12px;border-radius:10px;border:1px solid #eee"
         ++ [dquote] ++ lit ">") /\
    starts_with (lit "</pre>") Part001.html_tail = true /\
    Part001.escape_html (lit "<b>&hi</b>")
      = lit "&lt;b&gt;&amp;hi&lt;/b&gt;".
Proof.
  intros h id text w Hinj; split; [|split].
  - intros Hwf.
    destruct (fallback_html_encodes text Hwf) as [enc E].
    exists enc; split.
    + now rewrite <- escape_html_units.
    + unfold Part001.showBubbleInTab, try_catch.
      rewrite inject_refused by exact Hinj.
      unfold Part001.openFallback; now rewrite E.
  - intros Hwf.
    unfold Part001.showBubbleInTab, try_catch.
    rewrite inject_refused by exact Hinj.
    unfold Part001.openFallback.
    now rewrite (fallback_html_ill_formed text Hwf).
  - split; [unfold Part001.fallback_html; now rewrite escape_html_units|].
    split; [apply escape_html_units|].
    destruct (escape_html_no_angle text) as [H60 H62].
    split; [exact H60|]; split; [exact H62|]; split; [|split; reflexivity].
    exists (firstn 264 Part001.html_head); vm_compute; reflexivity.
Qed.

Lemma fallback_document_escapes_text_witness :
  injectable Demo.restricted_page 7 = false /\
  well_formed (lit "<b>&hi</b>") /\
  (exists enc,
     encodeURIComponent
       (Part001.html_head ++ flat_map Part001.escape_unit (lit "<b>&hi</b>")
                          ++ Part001.html_tail) = Some enc /\
     Part001.showBubbleInTab Demo.restricted_page 7
       (VStr (lit "<b>&hi</b>")) start =
       (Ret tt,
        mkWorld 0
          [EvCreateTab (lit "data:text/html;charset=utf-8," ++ enc)])) /\
  ~ well_formed Demo.half_pair /\
  Part001.showBubbleInTab Demo.restricted_page 7 (VStr Demo.half_pair) start
  = (Throw (URIError (lit "URI malformed")), start).
Proof.
  assert (W : well_formed (lit "<b>&hi</b>")) by (vm_compute; discriminate).
  assert (N : ~ well_formed Demo.half_pair)
    by (intros H; apply H; reflexivity).
  split; [reflexivity|]; split; [exact W|]; split.
  - destruct (proj1 (fallback_document_escapes_text Demo.restricted_page 7
                       (lit "<b>&hi</b>") start eq_refl) W)
      as [enc [E R]].
    exists enc; split; [exact E | exact R].
  - split; [exact N|].
    exact (proj1 (proj2 (fallback_document_escapes_text Demo.restricted_page
                           7 Demo.half_pair start eq_refl)) N).
Defined.

(** C7 as stated fails for a text with an unpaired surrogate: with the
    injection refused, [showBubbleInTab] on such a text opens no
    document at all; it ends with the URIError of
    [encodeURIComponent]. *)
Lemma fallback_fails_on_half_pair :
  injectable Demo.restricted_page 7 = false /\
  ~ well_formed Demo.half_pair /\
  Part001.showBubbleInTab Demo.restricted_page 7 (VStr Demo.half_pair) start
  = (Throw (URIError (lit "URI malformed")), start) /\
  (forall url,
     ~ In (EvCreateTab url)
          (trace (snd (Part001.showBubbleInTab Demo.restricted_page 7
                         (VStr Demo.half_pair) start)))).
Proof.
  split; [reflexivity|]; split; [intros H; apply H; reflexivity|].
  split; [reflexivity|].
  intros url H; exact H.
Qed.

(** C4, as the code has it: [upsertSummaryBubble] of
    [src/extension/background.js] finds its overlay by id.  On a page
    that does not itself use the ids "summarize-bubble" and
    "summarize-bubble-body", the first call appends the overlay and the
    second rewrites it where it stands: the page is as the first call
    left it but for the overlay's text and opacity, and the number of
    elements with the overlay's id is 1 after either call.  (The
    renderer of the other service worker has no id to go by and adds an
    overlay on every call.) *)
Theorem upsert_twice_keeps_one_bubble :
  forall (w1 w2 : Dom.window) (t1 t2 : jsstring) (l1 l2 : bool)
         (doc : Dom.document),
    Dom.count_elements Dom.bubble_id doc = 0%nat ->
    Dom.count_elements Dom.bubble_body_id doc = 0%nat ->
    Dom.upsertSummaryBubble w1 t1 l1 doc
      = doc ++ [Dom.bubble_showing w1 t1 l1] /\
    Dom.upsertSummaryBubble w2 t2 l2 (Dom.upsertSummaryBubble w1 t1 l1 doc)
      = doc ++ [Dom.bubble_showing w1 t2 l2] /\
    Dom.count_elements Dom.bubble_id (Dom.upsertSummaryBubble w1 t1 l1 doc)
      = 1%nat /\
    Dom.count_elements Dom.bubble_id
      (Dom.upsertSummaryBubble w2 t2 l2
         (Dom.upsertSummaryBubble w1 t1 l1 doc)) = 1%nat /\
    Dom.overlay_text (Dom.bubble_showing w1 t2 l2) = Some t2.
Proof.
  intros w1 w2 t1 t2 l1 l2 doc H1 H2.
  rewrite (upsert_fresh w1 t1 l1 doc H1 H2).
  rewrite (upsert_existing w2 w1 t1 l1 t2 l2 doc H1 H2).
  rewrite !count_elements_last, !count_bubble, H1.
  repeat split; now destruct t2.
Qed.

Lemma upsert_twice_keeps_one_bubble_witness :
  Dom.count_elements Dom.bubble_id [] = 0%nat /\
  Dom.count_elements Dom.bubble_body_id [] = 0%nat /\
  Dom.upsertSummaryBubble Demo.plain_window (lit "X") false
    (Dom.upsertSummaryBubble Demo.plain_window loading_text true [])
  = [Dom.bubble_showing Demo.plain_window (lit "X") false].
Proof.
  split; [reflexivity|]; split; [reflexivity|].
  exact (proj1 (proj2
           (upsert_twice_keeps_one_bubble Demo.plain_window Demo.plain_window
              loading_text (lit "X") true false [] eq_refl eq_refl))).
Defined.

(** C4 as stated fails for [inPageRenderBubble] of
    [src/unnamed/part_001]: two calls in a row on an empty page leave
    two overlays, the first still showing the first text. *)
Lemma inPageRenderBubble_twice_two_overlays :
  List.length
    (Dom.inPageRenderBubble Demo.plain_window (lit "B")
       (Dom.inPageRenderBubble Demo.plain_window (lit "A") [])) = 2%nat /\
  map Dom.overlay_text
    (Dom.inPageRenderBubble Demo.plain_window (lit "B")
       (Dom.inPageRenderBubble Demo.plain_window (lit "A") []))
  = [Some (lit "A"); Some (lit "B")].
Proof. split; reflexivity. Qed.
